(** * sjcloud-data-transfer: the transfer engine, embedded and verified

    The development follows the layout of the repository:
    - [Js]     : JavaScript numbers and the outcome of a call;
    - [Utils]  : the utility module ([readableFileSize], [runCommand],
                 [byteRanges], [md5Sum]);
    - [DxCli]  : the transfers through the [dx] command line tool
                 ([watchRemoteFile], [uploadFile], [downloadDxFile]);
    - [DxApi]  : the [UploadTransfer] class of the transfers through the
                 API client;
    - [Spec]   : the vocabulary of the properties;
    - the properties, function by function.

    JavaScript numbers are modelled by [number]: NaN, the two infinities and
    the finite values, the latter idealised as exact rationals. Callbacks
    and awaited calls are modelled as machines that take what the outside
    world answers as their input and log what they do. *)

From Stdlib Require Import ZArith QArith Qabs Qround Lia Bool Ascii String.
From stdpp Require Import gmap strings list fin_maps pretty.

Local Open Scope Z_scope.

(** * JavaScript numbers *)

Module Js.

Inductive number : Type :=
| NaN
| Inf (negative : bool)
| Fin (q : Q).

Definition of_Z (z : Z) : number := Fin (inject_Z z).

Definition isNaN (x : number) : bool :=
  match x with NaN => true | _ => false end.

Definition is_negative (q : Q) : bool := (Qnum q <? 0)%Z.
Definition is_zero (q : Q) : bool := (Qnum q =? 0)%Z.

(** [x === 0] on numbers. *)
Definition strict_eq_zero (x : number) : bool :=
  match x with Fin q => is_zero q | _ => false end.

(** [x < y]; every comparison with NaN is false. *)
Definition lt (x y : number) : bool :=
  match x, y with
  | NaN, _ | _, NaN => false
  | Inf nx, Inf ny => nx && negb ny
  | Inf nx, Fin _ => nx
  | Fin _, Inf ny => negb ny
  | Fin a, Fin b => match Qcompare a b with Lt => true | _ => false end
  end.

(** [x >= y]. *)
Definition ge (x y : number) : bool :=
  match x, y with
  | NaN, _ | _, NaN => false
  | Inf nx, Inf ny => negb nx || ny
  | Inf nx, Fin _ => negb nx
  | Fin _, Inf ny => ny
  | Fin a, Fin b => match Qcompare a b with Lt => false | _ => true end
  end.

Definition abs (x : number) : number :=
  match x with
  | NaN => NaN
  | Inf _ => Inf false
  | Fin q => Fin (Qabs q)
  end.

(** [x / y]. Zero has no sign here: a finite non-zero value divided by
    zero takes the sign of the dividend. *)
Definition div (x y : number) : number :=
  match x, y with
  | NaN, _ | _, NaN => NaN
  | Inf _, Inf _ => NaN
  | Inf nx, Fin b => Inf (xorb nx (is_negative b))
  | Fin _, Inf _ => Fin 0%Q
  | Fin a, Fin b =>
      if is_zero b then (if is_zero a then NaN else Inf (is_negative a))
      else Fin (a / b)%Q
  end.

(** [x * y]. *)
Definition mul (x y : number) : number :=
  match x, y with
  | NaN, _ | _, NaN => NaN
  | Inf nx, Inf ny => Inf (xorb nx ny)
  | Inf nx, Fin b => if is_zero b then NaN else Inf (xorb nx (is_negative b))
  | Fin a, Inf ny => if is_zero a then NaN else Inf (xorb (is_negative a) ny)
  | Fin a, Fin b => Fin (a * b)%Q
  end.

(** [Math.round]: the nearest integer, ties towards +Infinity. *)
Definition round_Q (q : Q) : Z := Qfloor (q + (1 # 2))%Q.

Definition round (x : number) : number :=
  match x with
  | Fin q => of_Z (round_Q q)
  | _ => x
  end.

(** [String(x)] for the values that are printed by the code below:
    NaN, the infinities and integers. A finite value that is not an integer
    is printed through [toFixed1]. *)
Definition to_string_int (x : number) : string :=
  match x with
  | NaN => "NaN"
  | Inf false => "Infinity"
  | Inf true => "-Infinity"
  | Fin q => pretty (Qfloor q)
  end.

(** [x.toFixed(1)]: the integer [n] with [n / 10] nearest to [|x|] (the
    larger one on a tie), printed with one digit after the point. *)
Definition tenths (q : Q) : Z := Qfloor (Qabs q * 10 + (1 # 2))%Q.

Definition toFixed1 (x : number) : string :=
  match x with
  | Fin q =>
      let n := tenths q in
      (if is_negative q then "-" else "")
        +:+ pretty (n / 10) +:+ "." +:+ pretty (n mod 10)
  | _ => to_string_int x
  end.

(** [parseFloat(x.toFixed(1))]. *)
Definition parse_toFixed1 (x : number) : number :=
  match x with
  | Fin q =>
      let v := (inject_Z (tenths q) / 10)%Q in
      Fin (if is_negative q then Qopp v else v)
  | _ => x
  end.

(** How a call ends: it returns a value or throws. *)
Inductive result (A : Type) : Type :=
| Ok (a : A)
| Exn (e : string).
Arguments Ok {A} a.
Arguments Exn {A} e.

End Js.

(** * utils *)

Module Utils.
Import Js.

Definition units : list string :=
  ["kB"; "MB"; "GB"; "TB"; "PB"; "EB"; "ZB"; "YB"].

(** The [do { byteCount /= divisor; ++u } while (byteCount >= divisor &&
    u < units.length - 1)] loop. [u] starts at -1 and the loop stops at the
    latest when [u] is 7, so eight rounds of fuel are never exhausted. *)
Fixpoint scale (fuel : nat) (byteCount divisor : number) (u : Z) : number * Z :=
  let byteCount := div byteCount divisor in
  let u := u + 1 in
  match fuel with
  | O => (byteCount, u)
  | S fuel' =>
      if ge byteCount divisor && (u <? Z.of_nat (length units) - 1)
      then scale fuel' byteCount divisor u
      else (byteCount, u)
  end.

Definition readableFileSize (bytes : number) (roundNumbers : bool)
  (divisor : number) : string :=
  if isNaN bytes || strict_eq_zero bytes then "0 GB"
  else
    let byteCount := abs bytes in
    if lt byteCount divisor then to_string_int (round byteCount) +:+ " B"
    else
      let '(byteCount, u) := scale 7 byteCount divisor (-1) in
      let number := toFixed1 byteCount in
      let number :=
        if roundNumbers then to_string_int (round (parse_toFixed1 byteCount))
        else number in
      number +:+ " " +:+ default "undefined" (units !! Z.to_nat u).

(** ** runCommand *)

Definition is_space (a : ascii) : bool :=
  let n := nat_of_ascii a in
  (n =? 32)%nat || ((9 <=? n)%nat && (n <=? 13)%nat).

Fixpoint trim_start (l : list ascii) : list ascii :=
  match l with
  | a :: l' => if is_space a then trim_start l' else l
  | [] => []
  end.

(** [s.trim()], on the ASCII white space. *)
Definition trim (s : string) : string :=
  string_of_list_ascii
    (rev (trim_start (rev (trim_start (list_ascii_of_string s))))).

(** What the child process hands to [innerCallback]. *)
Record exec_result := {
  exec_err : option string;
  exec_stdout : string;
  exec_stderr : string
}.

(** The arguments [(err, result)] of a [SuccessCallback]; [None] is
    [null]. *)
Definition callback_args : Type := option string * option string.

(** [innerCallback] of [runCommand]: the arguments it passes on to
    [callback]. *)
Definition innerCallback (raiseOnStderr : bool) (r : exec_result)
  : callback_args :=
  match exec_err r with
  | Some err => (Some err, None)
  | None =>
      if raiseOnStderr && (0 <? String.length (exec_stderr r))%nat
      then (Some (exec_stderr r), None)
      else if String.eqb (trim (exec_stdout r)) "False"
      then (Some "STDOUT was False", None)
      else (None, Some (exec_stdout r))
  end.

Definition supported_platform (platform : string) : bool :=
  String.eqb platform "darwin" || String.eqb platform "linux"
  || String.eqb platform "win32".

(** ** Byte ranges *)

Record IByteRange := { range_start : Z; range_end : Z }.

Definition range_size (r : IByteRange) : Z := range_end r - range_start r + 1.

(** The loop of the planner: from [offset] on, one range of at most
    [maxPartSize] bytes after the other, until [size] is reached. *)
Fixpoint byteRanges_from (parts : nat) (offset size maxPartSize : Z)
  : list IByteRange :=
  match parts with
  | O => []
  | S parts' =>
      if offset <? size then
        {| range_start := offset;
           range_end := Z.min (offset + maxPartSize) size - 1 |}
          :: byteRanges_from parts' (offset + maxPartSize) size maxPartSize
      else []
  end.

(** Modelled from the spec: [utils.byteRanges], which [UploadTransfer.prepare]
    calls, is missing from the sources at hand. The planner of the spec
    takes the file size and the maximum part size, fails with
    [InvalidSizeError] ([None]) when [fileSize < 0] or [maxPartSize <= 0],
    and otherwise yields the ordered ranges [{start, end}] (both inclusive)
    that cover the file, each as large as allowed but the last:
    [plan(100000, 30000)] is [0,29999], [30000,59999], [60000,89999],
    [90000,99999]. An empty file has the empty plan. *)
Definition byteRanges (size maxPartSize : Z) : option (list IByteRange) :=
  if (size <? 0) || (maxPartSize <=? 0) then None
  else
    Some (byteRanges_from (Z.to_nat ((size + maxPartSize - 1) / maxPartSize))
            0 size maxPartSize).

(** ** Digests *)

(** The bytes at the offsets [start] to [end], both inclusive: what
    [fs.createReadStream(src, {start, end})] reads. *)
Definition slice (content : list Byte.byte) (r : IByteRange) : list Byte.byte :=
  take (Z.to_nat (range_size r)) (drop (Z.to_nat (range_start r)) content).

(** Modelled from the spec: [utils.md5Sum] is missing from the sources at
    hand. The checksum service of the spec computes the digest over exactly
    the bytes of the given range of the source; [md5] is the digest
    function. *)
Definition md5Sum (md5 : list Byte.byte -> string) (content : list Byte.byte)
  (start end_ : Z) : string :=
  md5 (slice content {| range_start := start; range_end := end_ |}).

End Utils.

(** * dx: transfers through the [dx] command line tool *)

Module DxCli.
Import Js Utils.

(** ** The file object and the remote description *)

Record SJDTAFile := {
  path : string;
  raw_size : Z;
  largestReportedProgress : Z;
  sizeCheckingLock : bool
}.

Definition set_lock (b : bool) (file : SJDTAFile) : SJDTAFile :=
  {| path := path file; raw_size := raw_size file;
     largestReportedProgress := largestReportedProgress file;
     sizeCheckingLock := b |}.

Definition set_largest (n : Z) (file : SJDTAFile) : SJDTAFile :=
  {| path := path file; raw_size := raw_size file;
     largestReportedProgress := n;
     sizeCheckingLock := sizeCheckingLock file |}.

(** The object [dx describe --json] prints, as far as the watcher reads it:
    [parts] maps a part index to a part, whose [size] may be absent. *)
Record remote_file := { parts : option (list (string * option Z)) }.

(** ** Commands and effects *)

Inductive cmd : Type :=
| DxRm (dxRemotePath : string)
| Touch (outputPath : string)
| NewItem (outputPath : string)
| DxUpload (dxRemotePath localPath : string)
| DxTag (dxRemotePath tag : string)
| DxDownload (remoteFileId outputPath : string).

(** The command lines, as the source builds them. *)
Definition render (c : cmd) : string :=
  match c with
  | DxRm p => "dx rm -a '" +:+ p +:+ "' || true"
  | Touch p => "touch '" +:+ p +:+ "'"
  | NewItem p => "New-Item '" +:+ p +:+ "' -type file -force"
  | DxUpload p f => "dx upload -p --path '" +:+ p +:+ "' '" +:+ f +:+ "'"
  | DxTag p t => "dx tag '" +:+ p +:+ "' " +:+ t
  | DxDownload i o => "dx download -f " +:+ i +:+ " -o '" +:+ o +:+ "'"
  end.

Inductive effect : Type :=
| RunCommandSync (c : cmd)
| RunCommand (c : cmd)
| WatchFile (outputPath : string)
| SetInterval (dxRemotePath : string)
| ClearInterval
| DescribeDXItem (dxRemotePath : string)
| ProgressCb (progress : number)
| FinishedCb (err result : option string).

(** ** The world the commands act on *)

Record world := {
  remote : gset string;        (* the remote paths that hold an object *)
  local_fs : gmap string Z;    (* the local files and their sizes *)
  effects : list effect        (* what was done so far, oldest first *)
}.

Definition emit_in (e : effect) (w : world) : world :=
  {| remote := remote w; local_fs := local_fs w;
     effects := effects w ++ [e] |}.

(** How a synchronous command ends: the tool did its work, the tool failed
    (its exit status is non-zero), or the shell could not run it at all. *)
Inductive sync_result := Completed | ToolFailed | SpawnFailed.

(** What the tool does to the world when it works. [touch] leaves an
    existing file alone; [New-Item -force] replaces it by an empty one. *)
Definition act (c : cmd) (w : world) : world :=
  match c with
  | DxRm p =>
      {| remote := remote w ∖ {[p]}; local_fs := local_fs w;
         effects := effects w |}
  | Touch p =>
      {| remote := remote w;
         local_fs := match local_fs w !! p with
                     | Some _ => local_fs w
                     | None => <[p := 0]> (local_fs w)
                     end;
         effects := effects w |}
  | NewItem p =>
      {| remote := remote w; local_fs := <[p := 0]> (local_fs w);
         effects := effects w |}
  | _ => w
  end.

(** A command line that ends in [|| true] exits with status zero also when
    the tool fails. *)
Definition masks_failure (c : cmd) : bool :=
  match c with DxRm _ => true | _ => false end.

(** ** Computations that may throw *)

Definition M (A : Type) : Type := world -> result A * world.

Definition ret {A} (a : A) : M A := fun w => (Ok a, w).
Definition throw {A} (e : string) : M A := fun w => (Exn e, w).
Definition bind {A B} (m : M A) (k : A -> M B) : M B :=
  fun w => match m w with
           | (Ok a, w') => k a w'
           | (Exn e, w') => (Exn e, w')
           end.
Definition try_catch {A} (m : M A) (handler : string -> M A) : M A :=
  fun w => match m w with
           | (Ok a, w') => (Ok a, w')
           | (Exn e, w') => handler e w'
           end.
Definition emit (e : effect) : M unit := fun w => (Ok tt, emit_in e w).

Notation "m1 >> m2" := (bind m1 (fun _ => m2))
  (at level 62, right associativity).

Section Dx.

(** The platform the application runs on, the functions of Node's [path]
    module and of [expand-home-dir], the tag of [config.json], and the way
    each synchronous command ends. *)
Variable platform : string.
Variable basename : string -> string.
Variable path_join : string -> string -> string.
Variable expandHomeDir : string -> string.
Variable NEEDS_ANALYSIS_TAG : string.
Variable env : cmd -> sync_result.

(** [utils.runCommandSync]: runs the command to its end and throws when it
    fails. *)
Definition runCommandSync (c : cmd) : M unit :=
  emit (RunCommandSync c) >>
  match env c with
  | Completed => fun w => (Ok tt, act c w)
  | ToolFailed =>
      if masks_failure c then ret tt else throw "Command failed"
  | SpawnFailed => throw "Command failed"
  end.

(** [utils.runCommand]: starts the command; its callback runs later. *)
Definition runCommand (c : cmd) : M unit :=
  if supported_platform platform then emit (RunCommand c)
  else throw ("Unrecognized platform: " +:+ platform +:+ ".").

(** ** downloadDxFile *)

Definition downloadDxFile (remoteFileId fileName : string) (fileRawSize : Z)
  (downloadLocation : string) : M unit :=
  let outputPath := expandHomeDir (path_join downloadLocation fileName) in
  (if String.eqb platform "darwin" || String.eqb platform "linux"
   then runCommandSync (Touch outputPath)
   else if String.eqb platform "win32"
   then runCommandSync (NewItem outputPath)
   else throw ("Unknown platform: " +:+ platform +:+ ".")) >>
  emit (WatchFile outputPath) >>
  runCommand (DxDownload remoteFileId outputPath).

(** The listener of [fs.watchFile]: [stats] is the size [fs.stat] found, if
    any; the result is the progress handed to [updateCb], if any. *)
Definition downloadDxFile_onChange (fileRawSize : Z) (stats : option Z)
  : option number :=
  match stats with
  | Some size =>
      Some (round (mul (div (of_Z size) (of_Z fileRawSize)) (of_Z 100)))
  | None => None
  end.

(** ** watchRemoteFile *)

(** The loop that sums the sizes of the parts. *)
Definition sum_parts (ps : list (string * option Z)) : Z :=
  foldl (fun remoteObjectSize chunk =>
           match chunk.2 with
           | Some size =>
               if size =? 0 then remoteObjectSize
               else remoteObjectSize + size
           | None => remoteObjectSize
           end) 0 ps.

(** The comparison with [largestReportedProgress]: the file afterwards and
    the value of [remoteObjectSize] afterwards. *)
Definition clamp (file : SJDTAFile) (remoteObjectSize : Z) : SJDTAFile * Z :=
  if largestReportedProgress file <? remoteObjectSize
  then (file, largestReportedProgress file)
  else (set_largest remoteObjectSize file, remoteObjectSize).

(** The callback of [describeDXItem] in the watcher: the file afterwards
    and the progress handed to [progressCb], if any. *)
Definition onDescribe (file : SJDTAFile) (remoteFile : option remote_file)
  : SJDTAFile * option number :=
  let file := set_lock false file in
  match remoteFile with
  | None => (file, None)
  | Some rf =>
      match parts rf with
      | None => (file, None)
      | Some ps =>
          let '(file, remoteObjectSize) := clamp file (sum_parts ps) in
          (file,
           Some (mul (div (of_Z remoteObjectSize) (of_Z (raw_size file)))
                   (of_Z 100)))
      end
  end.

(** The watcher as a machine: the timer fires, or a describe call that is
    under way returns. *)
Record watcher := {
  w_file : SJDTAFile;
  w_dxRemotePath : string;
  w_describing : nat;          (* describe calls under way *)
  w_effects : list effect
}.

Inductive watch_event : Type :=
| Tick
| DescribeReturns (remoteFile : option remote_file).

Definition watch_step (w : watcher) (e : watch_event) : option watcher :=
  match e with
  | Tick =>
      if sizeCheckingLock (w_file w) then Some w
      else
        Some {| w_file := set_lock true (w_file w);
                w_dxRemotePath := w_dxRemotePath w;
                w_describing := S (w_describing w);
                w_effects :=
                  w_effects w ++ [DescribeDXItem (w_dxRemotePath w)] |}
  | DescribeReturns remoteFile =>
      match w_describing w with
      | O => None
      | S n =>
          let '(file, progress) := onDescribe (w_file w) remoteFile in
          Some {| w_file := file;
                  w_dxRemotePath := w_dxRemotePath w;
                  w_describing := n;
                  w_effects :=
                    w_effects w ++
                      match progress with
                      | Some p => [ProgressCb p]
                      | None => []
                      end |}
      end
  end.

Fixpoint watch_run (w : watcher) (es : list watch_event) : option watcher :=
  match es with
  | [] => Some w
  | e :: es' =>
      match watch_step w e with
      | Some w' => watch_run w' es'
      | None => None
      end
  end.

(** [watchRemoteFile(file, dxRemotePath, progressCb)]: the watcher when the
    timer is armed. *)
Definition watchRemoteFile (file : SJDTAFile) (dxRemotePath : string)
  : watcher :=
  {| w_file := file; w_dxRemotePath := dxRemotePath;
     w_describing := 0; w_effects := [] |}.

(** The values handed to [progressCb], oldest first. *)
Definition reported (es : list effect) : list number :=
  omap (fun e => match e with ProgressCb p => Some p | _ => None end) es.

(** ** uploadFile *)

Definition dxRemotePath_of (file : SJDTAFile) (projectId remoteFolder : string)
  : string :=
  projectId +:+ ": " +:+ remoteFolder +:+ " /" +:+ basename (trim (path file)).

(** The synchronous part: up to the start of the upload command. It
    returns the file with its progress mark reset. *)
Definition uploadFile (file : SJDTAFile) (projectId remoteFolder : string)
  : M SJDTAFile :=
  let dxRemotePath := dxRemotePath_of file projectId remoteFolder in
  try_catch (runCommandSync (DxRm dxRemotePath)) (fun _ => ret tt) >>
  let file := set_largest (-1) file in
  emit (SetInterval dxRemotePath) >>
  runCommand (DxUpload dxRemotePath (path file)) >>
  ret file.

Definition finishedCbWrapper (err result : option string) : list effect :=
  [ClearInterval; FinishedCb err result].

(** The callback of the tag command. *)
Definition uploadFile_onTag (args : callback_args) : list effect :=
  let '(err, stdout) := args in
  (match err with
   | Some _ => finishedCbWrapper err None
   | None => []
   end) ++ finishedCbWrapper None stdout.

(** The callback of the upload command; [tag] is how the tag command ends,
    should it be run. *)
Definition uploadFile_onUpload (file : SJDTAFile)
  (projectId remoteFolder : string) (args : callback_args)
  (tag : exec_result) : list effect :=
  let dxRemotePath := dxRemotePath_of file projectId remoteFolder in
  let '(err, stdout) := args in
  match err with
  | Some _ => finishedCbWrapper err None
  | None =>
      RunCommand (DxTag dxRemotePath NEEDS_ANALYSIS_TAG)
        :: uploadFile_onTag (innerCallback true tag)
  end.

(** The calls of [finishedCb], oldest first. *)
Definition finished (es : list effect) : list callback_args :=
  omap (fun e => match e with
                 | FinishedCb err result => Some (err, result)
                 | _ => None
                 end) es.

End Dx.

End DxCli.

(** * dx: transfers through the API client *)

Module DxApi.
Import Js Utils.

(** What the transfer does and what it is told, in the order it happens. *)
Inductive event : Type :=
| ProjectDescribe (projectId : string)
| FileNew (folder name project : string)
| CreateReadStream (start end_ : Z)
| Md5Sum (start end_ : Z)
| FileUpload (id : string) (index : Z) (md5 : string) (size : Z)
| Put (url : string) (body : list Byte.byte)
| PutAcknowledged (index : Z)
| PartFailed (index : Z)
| FileClose (id : string)
| ProgressCb (percent : number)
| FinishedCb (err : option string).

(** Where [start] stands. Inside the loop, [i] is the loop variable. *)
Inductive pc : Type :=
| Constructed
| AwaitParameters (projectId dst : string)
| AwaitNew
| AwaitMd5 (i : nat)
| AwaitUploadUrl (i : nat)
| AwaitPut (i : nat)
| Pending              (* the promise of [transfer] never settles *)
| AwaitClose
| Returned
| Rejected.

Record UploadTransfer := {
  src : string;
  content : list Byte.byte;       (* the bytes of the file at [src] *)
  size : Z;
  request : option Z;             (* the part of the latest PUT request *)
  bytesRead : Z;
  ranges : list IByteRange;       (* local to [start] *)
  id : string;                    (* local to [start] *)
  at_pc : pc;
  log : list event
}.

(** What the outside does to a transfer. *)
Inductive input : Type :=
| CallStart (projectId dst : string)
| CallAbort
| RetParameters (maximumPartSize : option Z)
| RetNew (id : option string)
| RetMd5 (resolved : bool)
| RetUploadUrl (url : option string)
| PutDone (error : option string)
| PutDrain (bytesWritten : Z)
| PutAbortEvent
| RetClose (resolved : bool).

Definition goto (p : pc) (es : list event) (t : UploadTransfer)
  : UploadTransfer :=
  {| src := src t; content := content t; size := size t;
     request := request t; bytesRead := bytesRead t;
     ranges := ranges t; id := id t;
     at_pc := p; log := log t ++ es |}.

Definition set_ranges (rs : list IByteRange) (t : UploadTransfer)
  : UploadTransfer :=
  {| src := src t; content := content t; size := size t;
     request := request t; bytesRead := bytesRead t;
     ranges := rs; id := id t;
     at_pc := at_pc t; log := log t |}.

Definition set_id (i : string) (t : UploadTransfer) : UploadTransfer :=
  {| src := src t; content := content t; size := size t;
     request := request t; bytesRead := bytesRead t;
     ranges := ranges t; id := i;
     at_pc := at_pc t; log := log t |}.

Definition set_request (r : option Z) (t : UploadTransfer) : UploadTransfer :=
  {| src := src t; content := content t; size := size t;
     request := r; bytesRead := bytesRead t;
     ranges := ranges t; id := id t;
     at_pc := at_pc t; log := log t |}.

Definition set_bytesRead (n : Z) (t : UploadTransfer) : UploadTransfer :=
  {| src := src t; content := content t; size := size t;
     request := request t; bytesRead := n;
     ranges := ranges t; id := id t;
     at_pc := at_pc t; log := log t |}.

Section UploadTransfer.

Variable md5 : list Byte.byte -> string.
Variable basename : string -> string.

(** The constructor: [size] is what [fs.statSync] finds. *)
Definition new (src : string) (content : list Byte.byte) : UploadTransfer :=
  {| src := src; content := content; size := Z.of_nat (length content);
     request := None; bytesRead := 0; ranges := []; id := "";
     at_pc := Constructed; log := [] |}.

(** The head of the [for] loop at [i]: the next [transfer] is entered, up
    to its first [await], or the loop is left and the file is closed. *)
Definition loop (i : nat) (t : UploadTransfer) : UploadTransfer :=
  match ranges t !! i with
  | Some r =>
      goto (AwaitMd5 i)
        [CreateReadStream (range_start r) (range_end r);
         Md5Sum (range_start r) (range_end r)] t
  | None => goto AwaitClose [FileClose (id t)] t
  end.

(** [abort()]: the name [request] in its body is the imported module, not
    the field [this.request]; the module is truthy and has no [abort]. *)
Definition abort (t : UploadTransfer) : result unit * UploadTransfer :=
  (Exn "TypeError: request.abort is not a function", t).

Definition step (t : UploadTransfer) (i : input) : option UploadTransfer :=
  match i, at_pc t with
  | CallAbort, _ => Some (abort t).2
  | CallStart projectId dst, Constructed =>
      Some (goto (AwaitParameters projectId dst) [ProjectDescribe projectId] t)
  | RetParameters params, AwaitParameters projectId dst =>
      match params with
      | Some maximumPartSize =>
          match byteRanges (size t) maximumPartSize with
          | Some rs =>
              Some (goto AwaitNew [FileNew dst (basename (src t)) projectId]
                      (set_ranges rs t))
          | None => Some (goto Rejected [] t)
          end
      | None => Some (goto Rejected [] t)
      end
  | RetNew r, AwaitNew =>
      match r with
      | Some i => Some (loop 0 (set_id i t))
      | None => Some (goto Rejected [] t)
      end
  | RetMd5 resolved, AwaitMd5 i =>
      match ranges t !! i with
      | Some r =>
          if resolved then
            Some (goto (AwaitUploadUrl i)
                    [FileUpload (id t) (Z.of_nat i + 1)
                       (md5Sum md5 (content t) (range_start r) (range_end r))
                       (range_end r - range_start r + 1)] t)
          else Some (goto Rejected [PartFailed (Z.of_nat i + 1)] t)
      | None => None
      end
  | RetUploadUrl r, AwaitUploadUrl i =>
      match ranges t !! i, r with
      | Some rg, Some url =>
          Some (goto (AwaitPut i) [Put url (slice (content t) rg)]
                  (set_request (Some (Z.of_nat i + 1)) t))
      | Some _, None => Some (goto Rejected [PartFailed (Z.of_nat i + 1)] t)
      | None, _ => None
      end
  | PutDone error, AwaitPut i =>
      match ranges t !! i, error with
      | Some r, None =>
          Some (loop (S i)
                  (goto (AwaitPut i) [PutAcknowledged (Z.of_nat i + 1)]
                     (set_bytesRead
                        (bytesRead t + (range_end r - range_start r + 1)) t)))
      | Some _, Some e =>
          Some (goto Pending [PartFailed (Z.of_nat i + 1); FinishedCb (Some e)] t)
      | None, _ => None
      end
  | PutDrain bytesWritten, AwaitPut i =>
      Some (goto (AwaitPut i)
              [ProgressCb
                 (mul (div (of_Z (bytesRead t + bytesWritten)) (of_Z (size t)))
                    (of_Z 100))] t)
  | PutAbortEvent, AwaitPut i =>
      Some (goto Pending [FinishedCb (Some "upload aborted")] t)
  | RetClose resolved, AwaitClose =>
      if resolved then Some (goto Returned [FinishedCb None] t)
      else Some (goto Rejected [] t)
  | _, _ => None
  end.

Fixpoint run (t : UploadTransfer) (ins : list input) : option UploadTransfer :=
  match ins with
  | [] => Some t
  | i :: ins' =>
      match step t i with
      | Some t' => run t' ins'
      | None => None
      end
  end.

(** [uploadFile]: the transfer is built and started, and handed back. *)
Definition uploadFile (localFilePath : string) (content : list Byte.byte)
  (projectId folder : string) : option UploadTransfer :=
  step (new localFilePath content) (CallStart projectId folder).

(** ** What a full, faultless upload of a plan looks like *)

(** The events of the part at position [i] of the plan, without the
    address of the PUT request. *)
Definition part_events (id : string) (content : list Byte.byte) (i : nat)
  (r : IByteRange) : list event :=
  [CreateReadStream (range_start r) (range_end r);
   Md5Sum (range_start r) (range_end r);
   FileUpload id (Z.of_nat i + 1) (md5 (slice content r)) (range_size r);
   Put "" (slice content r);
   PutAcknowledged (Z.of_nat i + 1)].

(** The events of the first [k] parts. *)
Fixpoint parts_done (id : string) (content : list Byte.byte)
  (rs : list IByteRange) (k : nat) : list event :=
  match k with
  | O => []
  | S k' =>
      parts_done id content rs k'
        ++ match rs !! k' with
           | Some r => part_events id content k' r
           | None => []
           end
  end.

(** Every part in the order of the plan, then the close. *)
Definition full_upload (t : UploadTransfer) : list event :=
  parts_done (id t) (content t) (ranges t) (length (ranges t))
    ++ [FileClose (id t)].

(** The events that belong to the parts and to the end of the remote
    object; the address of a PUT request is left out. *)
Definition part_view (e : event) : option event :=
  match e with
  | CreateReadStream _ _ | Md5Sum _ _ | FileUpload _ _ _ _
  | PutAcknowledged _ | FileClose _ => Some e
  | Put _ body => Some (Put "" body)
  | _ => None
  end.

Definition view (t : UploadTransfer) : list event := omap part_view (log t).

Definition is_close (e : event) : bool :=
  match e with FileClose _ => true | _ => false end.


End UploadTransfer.

End DxApi.

(** * The vocabulary of the properties *)

Module Spec.

(** ** Plans *)

(** [tiles lo plan hi]: the ranges of [plan], in their order, are not
    empty, the first starts at [lo], each next one starts right after the
    end of the one before, and the last ends at [hi - 1]. *)
Fixpoint tiles (lo : Z) (plan : list Utils.IByteRange) (hi : Z) : Prop :=
  match plan with
  | [] => lo = hi
  | r :: plan' =>
      Utils.range_start r = lo /\ lo <= Utils.range_end r
      /\ tiles (Utils.range_end r + 1) plan' hi
  end.

(** The offset [p] lies in the range [r]. *)
Definition covers (r : Utils.IByteRange) (p : Z) : Prop :=
  Utils.range_start r <= p <= Utils.range_end r.

(** The sum of the sizes of the ranges. *)
Definition total_size (plan : list Utils.IByteRange) : Z :=
  foldr (fun r n => Utils.range_size r + n) 0 plan.

(** ** The watcher *)

(** At most one describe call is under way, and the lock is held exactly
    while one is. *)
Definition watch_inv (w : DxCli.watcher) : Prop :=
  (DxCli.w_describing w <= 1)%nat
  /\ (DxCli.sizeCheckingLock (DxCli.w_file w) = true
      <-> DxCli.w_describing w = 1%nat).

(** ** Downloads *)

(** The command that creates the placeholder on each platform. *)
Definition placeholder (platform outputPath : string) : option DxCli.cmd :=
  if String.eqb platform "darwin" || String.eqb platform "linux"
  then Some (DxCli.Touch outputPath)
  else if String.eqb platform "win32" then Some (DxCli.NewItem outputPath)
  else None.

(** ** Transfers *)

Section Transfer.

Variable md5 : list Byte.byte -> string.

Local Abbreviation part_events := (DxApi.part_events md5).
Local Abbreviation parts_done := (DxApi.parts_done md5).
Local Abbreviation full_upload := (DxApi.full_upload md5).

(** How often the remote object was closed. *)
Definition close_count (l : list DxApi.event) : nat :=
  length (List.filter DxApi.is_close l).

(** Some part of the upload failed. *)
Definition failed (t : DxApi.UploadTransfer) : Prop :=
  exists index, DxApi.PartFailed index ∈ DxApi.log t.

(** The first [i] parts are done and the part at [i] got through its first
    [n] events. *)
Definition in_part (t : DxApi.UploadTransfer) (i n : nat) : Prop :=
  exists r,
    DxApi.ranges t !! i = Some r
    /\ DxApi.view t
       = parts_done (DxApi.id t) (DxApi.content t) (DxApi.ranges t) i
           ++ take n (part_events (DxApi.id t) (DxApi.content t) i r).

(** What the part events look like at each point of [start]. *)
Definition shape (t : DxApi.UploadTransfer) : Prop :=
  match DxApi.at_pc t with
  | DxApi.Constructed | DxApi.AwaitParameters _ _ | DxApi.AwaitNew =>
      DxApi.view t = []
  | DxApi.AwaitMd5 i => in_part t i 2
  | DxApi.AwaitUploadUrl i => in_part t i 3
  | DxApi.AwaitPut i => in_part t i 4
  | DxApi.Pending => exists i, in_part t i 4
  | DxApi.AwaitClose | DxApi.Returned => DxApi.view t = full_upload t
  | DxApi.Rejected =>
      DxApi.view t = []
      \/ (exists i n, (n <= 3)%nat /\ in_part t i n)
      \/ DxApi.view t = full_upload t
  end.

(** [start] will not go on: its promise is rejected or waits for ever. *)
Definition stopped (t : DxApi.UploadTransfer) : Prop :=
  DxApi.at_pc t = DxApi.Pending \/ DxApi.at_pc t = DxApi.Rejected.

(** The invariant of the transfer. *)
Definition inv (t : DxApi.UploadTransfer) : Prop :=
  shape t /\ (failed t -> stopped t /\ close_count (DxApi.log t) = 0%nat).

(** The file and the plan do not change under the transfer. *)
Definition stable (content : list Byte.byte) (t : DxApi.UploadTransfer)
  : Prop :=
  DxApi.content t = content
  /\ DxApi.size t = Z.of_nat (length content)
  /\ (DxApi.ranges t = []
      \/ exists maximumPartSize,
           Utils.byteRanges (DxApi.size t) maximumPartSize
           = Some (DxApi.ranges t)).

(** After a failed part the transfer has stopped and nothing was closed. *)
Definition quiet (t : DxApi.UploadTransfer) : Prop :=
  failed t -> stopped t /\ close_count (DxApi.log t) = 0%nat.


(** The answers of a remote side on which nothing fails: the parameters,
    the new object, then for each of the [n] parts the digest, the address
    and the end of the PUT request, and at last the close. *)
Definition part_script (url : string) : list DxApi.input :=
  [DxApi.RetMd5 true; DxApi.RetUploadUrl (Some url); DxApi.PutDone None].

Definition faultless (projectId dst id url : string) (maximumPartSize : Z)
  (n : nat) : list DxApi.input :=
  [DxApi.CallStart projectId dst;
   DxApi.RetParameters (Some maximumPartSize);
   DxApi.RetNew (Some id)]
    ++ concat (replicate n (part_script url)) ++ [DxApi.RetClose true].

End Transfer.

(** ** A sample transfer *)

(** A file of three bytes, to be sent in parts of two bytes; the digest of
    the sample is the number of bytes. *)
Definition sample_md5 (bytes : list Byte.byte) : string :=
  pretty (Z.of_nat (length bytes)).

Definition sample_transfer : DxApi.UploadTransfer :=
  DxApi.new "sample.bam" [Byte.x01; Byte.x02; Byte.x03].

End Spec.

(** * More of the code *)

(** ** More of the JavaScript numbers *)

Module JsMath.
Import Js.

(** [x <= y]. *)
Definition le (x y : number) : bool :=
  match x, y with
  | NaN, _ | _, NaN => false
  | Inf nx, Inf ny => nx || negb ny
  | Inf nx, Fin _ => nx
  | Fin _, Inf ny => negb ny
  | Fin a, Fin b => match Qcompare a b with Gt => false | _ => true end
  end.



(** [-x], [x + y] and [x - y]. *)
Definition neg (x : number) : number :=
  match x with
  | NaN => NaN
  | Inf n => Inf (negb n)
  | Fin q => Fin (- q)%Q
  end.



End JsMath.

(** ** utils.randomInt *)

Module Random.
Import Js JsMath.


End Random.

(** ** dx.parseDxProjects *)

Module Projects.
Import Utils.

Record SJDTAProject := {
  project_name : string;
  dx_location : string;
  access_level : string
}.

(** [s.split(sep)] for a separator of one character: the first piece and
    the pieces after it. *)
Fixpoint split_at (sep : ascii) (s : string) : string * list string :=
  match s with
  | EmptyString => (EmptyString, [])
  | String c s' =>
      let '(piece, pieces) := split_at sep s' in
      if Ascii.eqb c sep then (EmptyString, piece :: pieces)
      else (String c piece, pieces)
  end.

Definition split (sep : ascii) (s : string) : list string :=
  let '(piece, pieces) := split_at sep s in piece :: pieces.

Definition newline : ascii := ascii_of_nat 10.
Definition tab : ascii := ascii_of_nat 9.

(** The body of the [forEach]: what one line does to [results]. *)
Definition parseLine (results : list SJDTAProject) (el : string)
  : list SJDTAProject :=
  if (String.length (trim el) <=? 0)%nat then results
  else
    match split tab el with
    | dxLocation :: name :: accessLevel :: _ =>
        if (0 <? String.length accessLevel)%nat
        then results ++ [{| project_name := name;
                            dx_location := dxLocation;
                            access_level := accessLevel |}]
        else results
    | _ => results
    end.

Definition parseDxProjects (stdout : string) : list SJDTAProject :=
  foldl parseLine [] (split newline stdout).

End Projects.

(** ** dx.installDxToolkit *)

Module Install.
Import Js.

Record dxDownloadInfo := { url : string; hash : string }.

(** How [utils.computeSHA256] ends: it throws, or it calls back with an
    error or with the digest. *)
Inductive sha_outcome : Type :=
| ShaThrows
| ShaError (err : string)
| ShaHash (downloadHash : string).

(** What the installation meets: the platform of the machine, the answer
    of [utils.getUbuntuVersionOrNull], whether the download comes to its
    end, how the digest ends, whether the installer of Windows runs, and
    the error of the extraction, if any. *)
Record install_env := {
  os_platform : string;
  ubuntu_version : option string;
  download_ends : bool;
  sha : sha_outcome;
  installer_runs : bool;
  untar_error : option string
}.

Inductive install_effect : Type :=
| UpdateProgress (percent message : string)
| DownloadFile (url dest : string)
| ComputeSHA256 (filepath : string)
| ExecSync (filepath : string)
| UntarTo (filepath destParentDir : string)
| CallbackError (message : string)
| CallbackSuccess.

(** The two line feeds in the messages. *)
Definition blank_line : string :=
  String (ascii_of_nat 10) (String (ascii_of_nat 10) EmptyString).

Section Install.

(** [config.DOWNLOAD_INFO], and the paths that [os.tmpdir], [path.join],
    [path.dirname] and [utils.getDXToolkitDir] yield. *)
Variable MAC UBUNTU_12 UBUNTU_14 WINDOWS : dxDownloadInfo.
Variable tarPath exePath parentDir : string.

Definition dxToolkitDownloadInfo (platform : string) : result dxDownloadInfo :=
  if String.eqb platform "darwin" then Ok MAC
  else if String.eqb platform "ubuntu12" then Ok UBUNTU_12
  else if String.eqb platform "ubuntu14" then Ok UBUNTU_14
  else if String.eqb platform "win32" then Ok WINDOWS
  else Exn ("Unrecognized platform: " +:+ platform).

(** The platform after the first two lines; [None] is [null]. *)
Definition install_platform (env : install_env) : option string :=
  if String.eqb (os_platform env) "linux" then ubuntu_version env
  else Some (os_platform env).

(** The callback of [utils.untarTo]. *)
Definition onUntar (err : option string) : list install_effect :=
  match err with
  | Some e =>
      [CallbackError ("Could not extract dx-toolkit!" +:+ blank_line
                        +:+ e +:+ ".")]
  | None => [UpdateProgress "100%" "Success!"; CallbackSuccess]
  end.

(** The callback of [utils.computeSHA256]. *)
Definition onSHA256 (env : install_env) (platform : string)
  (expectedDownloadHash dxToolkitDownloadPath : string)
  (err : option string) (downloadHash : string) : list install_effect :=
  match err with
  | Some e =>
      [CallbackError ("Could not verify download!" +:+ blank_line
                        +:+ e +:+ ".")]
  | None =>
      if negb (String.eqb downloadHash expectedDownloadHash)
      then [CallbackError "Could not verify download (hash mismatch)!"]
      else if String.eqb platform "win32"
      then UpdateProgress "90%" "Installing..."
             :: ExecSync dxToolkitDownloadPath
             :: (if installer_runs env
                 then [UpdateProgress "100%" "Success!"; CallbackSuccess]
                 else [])
      else UpdateProgress "90%" "Extracting..."
             :: UntarTo dxToolkitDownloadPath parentDir
             :: onUntar (untar_error env)
  end.

(** The callback of [utils.downloadFile]. *)
Definition onDownload (env : install_env) (platform : string)
  (expectedDownloadHash dxToolkitDownloadPath : string)
  : list install_effect :=
  UpdateProgress "60%" "Verifying..."
    :: ComputeSHA256 dxToolkitDownloadPath
    :: match sha env with
       | ShaThrows => []
       | ShaError err =>
           onSHA256 env platform expectedDownloadHash dxToolkitDownloadPath
             (Some err) ""
       | ShaHash h =>
           onSHA256 env platform expectedDownloadHash dxToolkitDownloadPath
             None h
       end.

(** [installDxToolkit]: it throws before it does anything, or it does what
    is listed, oldest first. *)
Definition installDxToolkit (env : install_env)
  : result (list install_effect) :=
  match install_platform env with
  | None => Exn "Unrecognized platform: null."
  | Some platform =>
      if (String.length platform =? 0)%nat
      then Exn "Unrecognized platform: ."
      else
        match dxToolkitDownloadInfo platform with
        | Exn e => Exn e
        | Ok downloadInfo =>
            let dxToolkitDownloadPath :=
              if String.eqb platform "win32" then exePath else tarPath in
            Ok (UpdateProgress "30%" "Downloading..."
                  :: DownloadFile (url downloadInfo) dxToolkitDownloadPath
                  :: (if download_ends env
                      then onDownload env platform (hash downloadInfo)
                             dxToolkitDownloadPath
                      else []))
        end
  end.

End Install.

(** The calls of the callback and the progress that was shown. *)
Definition callbacks (es : list install_effect) : list install_effect :=
  List.filter (fun e => match e with
                        | CallbackError _ | CallbackSuccess => true
                        | _ => false
                        end) es.

Definition shown (es : list install_effect) : list string :=
  omap (fun e => match e with
                 | UpdateProgress percent _ => Some percent
                 | _ => None
                 end) es.

End Install.

(** ** store: cancelCheckedFiles *)

Module Store.
Import Js JsMath.

(** A file of the store; a flag that is not set counts as [false]. *)
Record file := {
  path : string;
  dx_location : string;
  checked : bool;
  started : bool;
  finished : bool;
  waiting : bool;
  cancelled : bool;
  errored : bool;
  status : number;
  progress : number
}.

(** [t.checked && t.started && !t.finished]. *)
Definition in_transfer (t : file) : bool :=
  checked t && started t && negb (finished t).

(** [t.checked && (t.waiting || t.status === 0) && !t.finished]. *)
Definition in_waiting (t : file) : bool :=
  checked t && (waiting t || strict_eq_zero (status t)) && negb (finished t).

(** The body of the first [forEach], as far as the file goes. *)
Definition cancel_transfer (elem : file) : file :=
  {| path := path elem; dx_location := dx_location elem;
     checked := checked elem; started := started elem;
     finished := finished elem; waiting := waiting elem;
     cancelled := true;
     errored := if le (status elem) (of_Z 0) && started elem then true
                else errored elem;
     status := status elem; progress := progress elem |}.

(** The body of the second [forEach]. *)
Definition cancel_waiting (elem : file) : file :=
  {| path := path elem; dx_location := dx_location elem;
     checked := false; started := false;
     finished := finished elem; waiting := false;
     cancelled := true; errored := errored elem;
     status := status elem; progress := of_Z 0 |}.

(** What is asked of the backend. *)
Inductive request : Type :=
| AbortOrKill (path : string)
| CancelToken (dx_location : string)
| RemoveAllTaskOfType (currPath : string).

(** The way to stop the transfer of a file in transfer, if it is known. *)
Definition stop_request (currPath : string)
  (operationUploadProcesses operationDownloadProcesses : gset string)
  (elem : file) : option request :=
  if String.eqb currPath "upload" then
    if decide (path elem ∈ operationUploadProcesses)
    then Some (AbortOrKill (path elem)) else None
  else if String.eqb currPath "download" then
    if decide (dx_location elem ∈ operationDownloadProcesses)
    then Some (CancelToken (dx_location elem)) else None
  else None.

(** [cancelCheckedFiles] on the files of the current tool and path: the
    files afterwards and the requests to the backend. *)
Definition cancelCheckedFiles (currPath : string)
  (operationUploadProcesses operationDownloadProcesses : gset string)
  (files : list file) : list file * list request :=
  let filesInTransfer := List.filter in_transfer files in
  let files1 :=
    map (fun t => if in_transfer t then cancel_transfer t else t) files in
  let requests :=
    (if String.eqb currPath "upload" || String.eqb currPath "download"
     then [RemoveAllTaskOfType currPath] else [])
      ++ omap (stop_request currPath operationUploadProcesses
                 operationDownloadProcesses) filesInTransfer in
  (map (fun t => if in_waiting t then cancel_waiting t else t) files1,
   requests).

End Store.

(** ** The vocabulary of the further properties *)

Module Spec2.

(** The part sizes of a describe result are not negative. *)
Definition healthy (e : DxCli.watch_event) : Prop :=
  match e with
  | DxCli.DescribeReturns (Some {| DxCli.parts := Some ps |}) =>
      Forall (fun chunk => match chunk.2 with
                           | Some size => 0 <= size
                           | None => True
                           end) ps
  | _ => True
  end.

(** The describe calls that were started, and the describe calls that
    returned. *)
Definition describes (es : list DxCli.effect) : nat :=
  length (List.filter (fun e => match e with
                                | DxCli.DescribeDXItem _ => true
                                | _ => false
                                end) es).

Definition returns (es : list DxCli.watch_event) : nat :=
  length (List.filter (fun e => match e with
                                | DxCli.DescribeReturns _ => true
                                | _ => false
                                end) es).

(** The progress that stands for -1 byte of [raw_size]. *)
Definition stuck_progress (raw_size : Z) : Js.number :=
  Js.mul (Js.div (Js.of_Z (-1)) (Js.of_Z raw_size)) (Js.of_Z 100).

(** The watcher still holds -1 and has reported nothing else. *)
Definition stuck (raw_size : Z) (w : DxCli.watcher) : Prop :=
  DxCli.largestReportedProgress (DxCli.w_file w) = -1
  /\ DxCli.raw_size (DxCli.w_file w) = raw_size
  /\ Forall (fun p => p = stuck_progress raw_size)
       (DxCli.reported (DxCli.w_effects w)).

(** Every call of the finished callback comes right after the timer of
    the watcher was cleared; [cleared] tells whether it was just cleared. *)
Fixpoint guarded (cleared : bool) (es : list DxCli.effect) : bool :=
  match es with
  | [] => true
  | DxCli.ClearInterval :: es' => guarded true es'
  | DxCli.FinishedCb _ _ :: es' => cleared && guarded false es'
  | _ :: es' => guarded false es'
  end.

(** The tag command was started. *)
Definition tags (e : DxCli.effect) : bool :=
  match e with
  | DxCli.RunCommand (DxCli.DxTag _ _) => true
  | _ => false
  end.

(** The calls of the finished callback of a transfer, oldest first. *)
Definition calls (l : list DxApi.event) : list (option string) :=
  omap (fun e => match e with
                 | DxApi.FinishedCb err => Some err
                 | _ => None
                 end) l.

(** The finished callback was called as the point of [start] asks for. *)
Definition reported_as_due (t : DxApi.UploadTransfer) : Prop :=
  match DxApi.at_pc t with
  | DxApi.Pending => exists e, calls (DxApi.log t) = [Some e]
  | DxApi.Returned => calls (DxApi.log t) = [None]
  | _ => calls (DxApi.log t) = []
  end.

(** [bytesRead] is the size of the parts that were acknowledged. *)
Definition read_as_due (t : DxApi.UploadTransfer) : Prop :=
  match DxApi.at_pc t with
  | DxApi.Constructed | DxApi.AwaitParameters _ _ | DxApi.AwaitNew =>
      DxApi.bytesRead t = 0
  | DxApi.AwaitMd5 i | DxApi.AwaitUploadUrl i | DxApi.AwaitPut i =>
      DxApi.bytesRead t = Spec.total_size (take i (DxApi.ranges t))
  | DxApi.AwaitClose | DxApi.Returned =>
      DxApi.bytesRead t = Spec.total_size (DxApi.ranges t)
  | DxApi.Pending | DxApi.Rejected =>
      exists k : nat,
        DxApi.bytesRead t = Spec.total_size (take k (DxApi.ranges t))
  end.





End Spec2.

(** * Properties *)

Import Spec.

(** ** utils.readableFileSize *)

Lemma strict_eq_zero_Qeq (q : Q) :
  Js.strict_eq_zero (Js.Fin q) = true <-> (q == 0)%Q.
Proof.
  unfold Js.strict_eq_zero, Js.is_zero, Qeq. simpl.
  rewrite Z.eqb_eq. lia.
Qed.

(** C10: [readableFileSize] returns the string "0 GB", and so not "0 B",
    when [bytes] is NaN and when [bytes] is 0, whatever [roundNumbers] and
    [divisor] are. *)
Theorem readableFileSize_zero_or_NaN
  (bytes : Js.number) (roundNumbers : bool) (divisor : Js.number) :
  Js.isNaN bytes = true \/ Js.strict_eq_zero bytes = true ->
  Utils.readableFileSize bytes roundNumbers divisor = "0 GB"
  /\ Utils.readableFileSize bytes roundNumbers divisor <> "0 B".
Proof.
  intros H. unfold Utils.readableFileSize.
  assert (Js.isNaN bytes || Js.strict_eq_zero bytes = true) as ->
    by (apply orb_true_iff; exact H).
  split; [reflexivity | discriminate].
Qed.

Lemma readableFileSize_zero_or_NaN_witness :
  (Utils.readableFileSize Js.NaN true (Js.of_Z 1024) = "0 GB"
   /\ Utils.readableFileSize Js.NaN true (Js.of_Z 1024) <> "0 B")
  /\ (Utils.readableFileSize (Js.of_Z 0) false Js.NaN = "0 GB"
      /\ Utils.readableFileSize (Js.of_Z 0) false Js.NaN <> "0 B").
Proof.
  split.
  - apply (readableFileSize_zero_or_NaN Js.NaN true (Js.of_Z 1024)).
    left. reflexivity.
  - apply (readableFileSize_zero_or_NaN (Js.of_Z 0) false Js.NaN).
    right. reflexivity.
Defined.

(** The other branches, on the values of the documentation. *)
Example readableFileSize_samples :
  Utils.readableFileSize (Js.of_Z 999) false (Js.of_Z 1000) = "999 B"
  /\ Utils.readableFileSize (Js.of_Z 1500) false (Js.of_Z 1000) = "1.5 kB"
  /\ Utils.readableFileSize (Js.of_Z 1500) true (Js.of_Z 1000) = "2 kB"
  /\ Utils.readableFileSize (Js.of_Z (-2048)) false (Js.of_Z 1024) = "2.0 kB".
Proof. repeat split; vm_compute; reflexivity. Qed.

(** ** utils.byteRanges *)

Lemma tiles_le plan : forall lo hi, tiles lo plan hi -> lo <= hi.
Proof.
  induction plan as [|r plan IH]; simpl; intros lo hi H.
  - lia.
  - destruct H as (Hs & He & Ht). apply IH in Ht. lia.
Qed.

Lemma tiles_within plan : forall lo hi r,
  tiles lo plan hi -> r ∈ plan ->
  lo <= Utils.range_start r /\ Utils.range_start r <= Utils.range_end r
  /\ Utils.range_end r < hi.
Proof.
  induction plan as [|x plan IH]; simpl; intros lo hi r H Hin.
  - apply elem_of_nil in Hin. contradiction.
  - destruct H as (Hs & He & Ht).
    apply elem_of_cons in Hin as [-> | Hin].
    + apply tiles_le in Ht. lia.
    + destruct (IH _ _ _ Ht Hin) as (? & ? & ?). lia.
Qed.

Lemma tiles_cover plan : forall lo hi,
  tiles lo plan hi ->
  forall p, lo <= p < hi <-> exists r, r ∈ plan /\ covers r p.
Proof.
  induction plan as [|x plan IH]; simpl; intros lo hi H p.
  - split; [lia |]. intros (r & Hin & _).
    apply elem_of_nil in Hin. contradiction.
  - destruct H as (Hs & He & Ht). split.
    + intros Hp. destruct (Z_le_gt_dec p (Utils.range_end x)) as [Hle | Hgt].
      * exists x. split; [left | unfold covers; lia].
      * destruct (proj1 (IH _ _ Ht p)) as (r & Hin & Hc); [lia |].
        exists r. split; [right; exact Hin | exact Hc].
    + intros (r & Hin & Hc). unfold covers in Hc.
      apply elem_of_cons in Hin as [-> | Hin].
      * apply tiles_le in Ht. lia.
      * destruct (tiles_within _ _ _ _ Ht Hin) as (? & ? & ?). lia.
Qed.

Lemma tiles_ordered plan : forall lo hi (i j : nat) r r',
  tiles lo plan hi ->
  plan !! i = Some r -> plan !! j = Some r' -> (i < j)%nat ->
  Utils.range_end r < Utils.range_start r'.
Proof.
  induction plan as [|x plan IH]; intros lo hi i j r r' H Hi Hj Hlt.
  - discriminate.
  - simpl in H. destruct H as (Hs & He & Ht).
    destruct j as [|j]; [lia |]. simpl in Hj.
    destruct i as [|i]; simpl in Hi.
    + injection Hi as <-.
      assert (r' ∈ plan) as Hin by (eapply list_elem_of_lookup_2; eauto).
      destruct (tiles_within _ _ _ _ Ht Hin) as (? & ? & ?). lia.
    + eapply IH; eauto. lia.
Qed.

Lemma tiles_total_size plan : forall lo hi,
  tiles lo plan hi -> total_size plan = hi - lo.
Proof.
  induction plan as [|x plan IH]; simpl; intros lo hi H.
  - lia.
  - destruct H as (Hs & He & Ht). rewrite (IH _ _ Ht).
    unfold Utils.range_size. lia.
Qed.

Lemma byteRanges_from_tiles parts : forall offset size maxPartSize,
  0 < maxPartSize -> 0 <= offset ->
  size - offset <= Z.of_nat parts * maxPartSize ->
  tiles (Z.min offset size)
    (Utils.byteRanges_from parts offset size maxPartSize) size
  /\ Forall (fun r => Utils.range_size r <= maxPartSize)
       (Utils.byteRanges_from parts offset size maxPartSize).
Proof.
  induction parts as [|parts IH]; intros offset size maxPartSize Hm Ho Hf.
  - simpl. split; [lia | constructor].
  - simpl. destruct (offset <? size) eqn:Hlt.
    + apply Z.ltb_lt in Hlt.
      destruct (IH (offset + maxPartSize) size maxPartSize) as [Ht Hs];
        [lia | lia | lia |].
      split.
      * simpl. split; [lia |]. split; [lia |].
        replace (Z.min (offset + maxPartSize) size - 1 + 1)
          with (Z.min (offset + maxPartSize) size) by lia.
        exact Ht.
      * constructor; [| exact Hs]. unfold Utils.range_size. simpl. lia.
    + apply Z.ltb_ge in Hlt. simpl. split; [lia | constructor].
Qed.

Lemma part_count_enough (size maxPartSize : Z) :
  0 <= size -> 0 < maxPartSize ->
  size <= Z.of_nat (Z.to_nat ((size + maxPartSize - 1) / maxPartSize))
            * maxPartSize.
Proof.
  intros Hs Hm.
  pose proof (Z.div_mod (size + maxPartSize - 1) maxPartSize) as Hdm.
  pose proof (Z.mod_pos_bound (size + maxPartSize - 1) maxPartSize Hm) as Hb.
  assert (0 <= (size + maxPartSize - 1) / maxPartSize)
    by (apply Z.div_pos; lia).
  rewrite Z2Nat.id by assumption. nia.
Qed.

Lemma byteRanges_within (size maxPartSize : Z)
  (plan : list Utils.IByteRange) (r : Utils.IByteRange) :
  Utils.byteRanges size maxPartSize = Some plan -> r ∈ plan ->
  0 <= Utils.range_start r /\ Utils.range_start r <= Utils.range_end r
  /\ Utils.range_end r < size.
Proof.
  unfold Utils.byteRanges. intros H Hin.
  destruct (size <? 0) eqn:E1; [discriminate H |].
  destruct (maxPartSize <=? 0) eqn:E2; [discriminate H |].
  apply Z.ltb_ge in E1. apply Z.leb_gt in E2.
  simpl in H. injection H as <-.
  destruct (byteRanges_from_tiles
              (Z.to_nat ((size + maxPartSize - 1) / maxPartSize))
              0 size maxPartSize) as [Ht _];
    [lia | lia | pose proof (part_count_enough size maxPartSize E1 E2); lia |].
  rewrite Z.min_l in Ht by lia.
  exact (tiles_within _ _ _ _ Ht Hin).
Qed.

(** C7: for [fileSize >= 0] and [maxPartSize > 0] the planner yields a plan.
    Its ranges are ordered, without gap and without overlap; their union is
    exactly the offsets [0 <= p < fileSize]; each has at most [maxPartSize]
    bytes; the sizes add up to [fileSize]; and the plan is a function of the
    two inputs. *)
Theorem byteRanges_plan_coverage (fileSize maxPartSize : Z) :
  0 <= fileSize -> 0 < maxPartSize ->
  exists plan,
    Utils.byteRanges fileSize maxPartSize = Some plan
    /\ tiles 0 plan fileSize
    /\ (forall p, 0 <= p < fileSize <-> exists r, r ∈ plan /\ covers r p)
    /\ (forall (i j : nat) r r', plan !! i = Some r -> plan !! j = Some r' ->
          (i < j)%nat -> Utils.range_end r < Utils.range_start r')
    /\ (forall (i j : nat) r r' p, plan !! i = Some r -> plan !! j = Some r' ->
          covers r p -> covers r' p -> i = j)
    /\ Forall (fun r => 1 <= Utils.range_size r <= maxPartSize) plan
    /\ total_size plan = fileSize
    /\ (forall plan', Utils.byteRanges fileSize maxPartSize = Some plan' ->
          plan' = plan).
Proof.
  intros Hs Hm. unfold Utils.byteRanges.
  destruct (fileSize <? 0) eqn:E1; [apply Z.ltb_lt in E1; lia |].
  destruct (maxPartSize <=? 0) eqn:E2; [apply Z.leb_le in E2; lia |].
  simpl.
  set (plan := Utils.byteRanges_from _ 0 fileSize maxPartSize).
  destruct (byteRanges_from_tiles
              (Z.to_nat ((fileSize + maxPartSize - 1) / maxPartSize))
              0 fileSize maxPartSize) as [Ht Hsz];
    [lia | lia | pose proof (part_count_enough fileSize maxPartSize Hs Hm); lia |].
  fold plan in Ht, Hsz. rewrite Z.min_l in Ht by lia.
  exists plan. split; [reflexivity |]. split; [exact Ht |].
  split; [exact (tiles_cover _ _ _ Ht) |].
  split; [intros i j r r'; exact (tiles_ordered _ _ _ i j r r' Ht) |].
  split.
  { intros i j r r' p Hi Hj Hc Hc'. unfold covers in *.
    destruct (lt_eq_lt_dec i j) as [[Hlt | Heq] | Hgt]; [| exact Heq |].
    - pose proof (tiles_ordered _ _ _ _ _ _ _ Ht Hi Hj Hlt). lia.
    - pose proof (tiles_ordered _ _ _ _ _ _ _ Ht Hj Hi Hgt). lia. }
  split.
  { apply Forall_forall. intros r Hin.
    destruct (tiles_within _ _ _ _ Ht Hin) as (? & ? & ?).
    rewrite Forall_forall in Hsz. specialize (Hsz r Hin). simpl in Hsz.
    unfold Utils.range_size in *. lia. }
  split; [rewrite (tiles_total_size _ _ _ Ht); lia |].
  intros plan' H. injection H as <-. reflexivity.
Qed.

Lemma byteRanges_plan_coverage_witness :
  exists plan,
    Utils.byteRanges 100000 30000 = Some plan
    /\ tiles 0 plan 100000
    /\ (forall p, 0 <= p < 100000 <-> exists r, r ∈ plan /\ covers r p)
    /\ (forall (i j : nat) r r', plan !! i = Some r -> plan !! j = Some r' ->
          (i < j)%nat -> Utils.range_end r < Utils.range_start r')
    /\ (forall (i j : nat) r r' p, plan !! i = Some r -> plan !! j = Some r' ->
          covers r p -> covers r' p -> i = j)
    /\ Forall (fun r => 1 <= Utils.range_size r <= 30000) plan
    /\ total_size plan = 100000
    /\ (forall plan', Utils.byteRanges 100000 30000 = Some plan' ->
          plan' = plan).
Proof. apply (byteRanges_plan_coverage 100000 30000); lia. Defined.

(** The plan of the spec's example, and the degenerate plans. *)
Example byteRanges_samples :
  Utils.byteRanges 100000 30000
  = Some [ {| Utils.range_start := 0; Utils.range_end := 29999 |};
           {| Utils.range_start := 30000; Utils.range_end := 59999 |};
           {| Utils.range_start := 60000; Utils.range_end := 89999 |};
           {| Utils.range_start := 90000; Utils.range_end := 99999 |} ]
  /\ Utils.byteRanges 0 30000 = Some []
  /\ Utils.byteRanges (-1) 30000 = None
  /\ Utils.byteRanges 10 0 = None.
Proof. repeat split; vm_compute; reflexivity. Qed.

(** ** dx.watchRemoteFile *)


Lemma clamp_lock (file : DxCli.SJDTAFile) (remoteObjectSize : Z) :
  DxCli.sizeCheckingLock (DxCli.clamp file remoteObjectSize).1
  = DxCli.sizeCheckingLock file.
Proof.
  unfold DxCli.clamp.
  destruct (DxCli.largestReportedProgress file <? remoteObjectSize);
    reflexivity.
Qed.

Lemma onDescribe_releases (file : DxCli.SJDTAFile)
  (remoteFile : option DxCli.remote_file) :
  DxCli.sizeCheckingLock (DxCli.onDescribe file remoteFile).1 = false.
Proof.
  unfold DxCli.onDescribe.
  destruct remoteFile as [[[ps|]]|]; try reflexivity.
  cbn [DxCli.parts].
  pose proof (clamp_lock (DxCli.set_lock false file) (DxCli.sum_parts ps)) as H.
  destruct (DxCli.clamp _ _) as [file' n]. exact H.
Qed.


Lemma watch_step_inv (w w' : DxCli.watcher) (e : DxCli.watch_event) :
  watch_inv w -> DxCli.watch_step w e = Some w' -> watch_inv w'.
Proof.
  intros [Hle Hiff] Hstep. destruct e as [|remoteFile]; simpl in Hstep.
  - destruct (DxCli.sizeCheckingLock (DxCli.w_file w)) eqn:Hlock.
    + injection Hstep as <-. split; [exact Hle | rewrite Hlock; exact Hiff].
    + injection Hstep as <-. unfold watch_inv. simpl.
      assert (DxCli.w_describing w = 0%nat).
      { destruct (DxCli.w_describing w) as [|[|n]]; [reflexivity | | lia].
        destruct Hiff as [_ Hiff]. discriminate (Hiff eq_refl). }
      split; [lia |]. split; intros _; [lia | reflexivity].
  - destruct (DxCli.w_describing w) as [|n] eqn:Hn; [discriminate |].
    pose proof (onDescribe_releases (DxCli.w_file w) remoteFile) as Hrel.
    destruct (DxCli.onDescribe (DxCli.w_file w) remoteFile) as [file progress].
    injection Hstep as <-. unfold watch_inv. simpl in *.
    rewrite Hrel. split; [lia |]. split; [discriminate | lia].
Qed.

Lemma watch_run_inv (es : list DxCli.watch_event) :
  forall w w', watch_inv w -> DxCli.watch_run w es = Some w' -> watch_inv w'.
Proof.
  induction es as [|e es IH]; simpl; intros w w' Hinv Hrun.
  - injection Hrun as <-. exact Hinv.
  - destruct (DxCli.watch_step w e) as [w1|] eqn:Hstep; [| discriminate].
    eapply IH; [eapply watch_step_inv; eauto | exact Hrun].
Qed.

(** C4: the watcher of a file whose lock is free at the start never has
    two describe calls under way. The lock is held exactly while a describe
    call is under way; a tick of the timer in that state changes nothing: it
    starts no describe call and reports no progress; and when the describe
    call returns, the lock is free again. *)
Theorem watchRemoteFile_one_poll_at_a_time
  (file : DxCli.SJDTAFile) (dxRemotePath : string)
  (es : list DxCli.watch_event) (w : DxCli.watcher) :
  DxCli.sizeCheckingLock file = false ->
  DxCli.watch_run (DxCli.watchRemoteFile file dxRemotePath) es = Some w ->
  (DxCli.w_describing w <= 1)%nat
  /\ (DxCli.sizeCheckingLock (DxCli.w_file w) = true
      <-> DxCli.w_describing w = 1%nat)
  /\ (DxCli.w_describing w = 1%nat -> DxCli.watch_step w DxCli.Tick = Some w)
  /\ (forall remoteFile w',
        DxCli.watch_step w (DxCli.DescribeReturns remoteFile) = Some w' ->
        DxCli.sizeCheckingLock (DxCli.w_file w') = false
        /\ DxCli.w_describing w' = 0%nat).
Proof.
  intros Hfree Hrun.
  assert (watch_inv w) as Hinv.
  { eapply watch_run_inv; [| exact Hrun].
    unfold watch_inv, DxCli.watchRemoteFile. simpl. rewrite Hfree.
    split; [lia |]. split; [discriminate | lia]. }
  destruct Hinv as [Hle Hiff].
  split; [exact Hle |]. split; [exact Hiff |]. split.
  - intros H1. simpl. apply Hiff in H1. rewrite H1. reflexivity.
  - intros remoteFile w' Hstep.
    assert (watch_inv w') as [Hle' Hiff']
      by (eapply watch_step_inv; [split; eassumption | exact Hstep]).
    simpl in Hstep.
    destruct (DxCli.w_describing w) as [|n] eqn:Hn; [discriminate |].
    pose proof (onDescribe_releases (DxCli.w_file w) remoteFile) as Hrel.
    destruct (DxCli.onDescribe (DxCli.w_file w) remoteFile) as [file' progress].
    injection Hstep as <-. simpl in *. split; [exact Hrel | lia].
Qed.

Lemma watchRemoteFile_one_poll_at_a_time_witness :
  let file := {| DxCli.path := "sample.bam"; DxCli.raw_size := 1000;
                 DxCli.largestReportedProgress := -1;
                 DxCli.sizeCheckingLock := false |} in
  exists w,
    DxCli.watch_run (DxCli.watchRemoteFile file "remote")
      [DxCli.Tick; DxCli.Tick; DxCli.Tick] = Some w
    /\ DxCli.w_effects w = [DxCli.DescribeDXItem "remote"]
    /\ (DxCli.w_describing w <= 1)%nat
    /\ (DxCli.sizeCheckingLock (DxCli.w_file w) = true
        <-> DxCli.w_describing w = 1%nat)
    /\ (DxCli.w_describing w = 1%nat
        -> DxCli.watch_step w DxCli.Tick = Some w)
    /\ (forall remoteFile w',
          DxCli.watch_step w (DxCli.DescribeReturns remoteFile) = Some w' ->
          DxCli.sizeCheckingLock (DxCli.w_file w') = false
          /\ DxCli.w_describing w' = 0%nat).
Proof.
  intros file. eexists. split; [reflexivity |]. split; [reflexivity |].
  apply (watchRemoteFile_one_poll_at_a_time file "remote"
           [DxCli.Tick; DxCli.Tick; DxCli.Tick]); reflexivity.
Defined.

(** ** dx.uploadFile *)

Lemma effects_three (es : list DxCli.effect) (a b c : DxCli.effect) :
  ((es ++ [a]) ++ [b]) ++ [c] = es ++ [a; b; c].
Proof. rewrite <- !app_assoc. reflexivity. Qed.

(** C2, as it stands, fails: the data transfer succeeds, the tag command
    fails, and the finished callback is called twice, first with the error
    of the tag command. *)
Lemma uploadFile_tag_failure_calls_twice :
  let calls :=
    DxCli.finished
      (DxCli.uploadFile_onUpload (fun s => s) "needs-analysis"
         {| DxCli.path := "sample.bam"; DxCli.raw_size := 1000;
            DxCli.largestReportedProgress := -1;
            DxCli.sizeCheckingLock := false |}
         "project-1" "/uploads" (None, Some "file-1")
         {| Utils.exec_err := Some "tag failed"; Utils.exec_stdout := "";
            Utils.exec_stderr := "" |}) in
  calls = [(Some "tag failed", None); (None, None)]
  /\ ~ (exists result, calls = [(None, result)]).
Proof.
  split; [reflexivity |]. intros [result H]. discriminate H.
Qed.

(** C2, amended: when the data transfer succeeds and the tag command fails,
    the error of the tag command is handed to the finished callback: the
    first call of the callback carries that error and no result. When the
    tag command succeeds, the callback is called exactly once, without
    error and with the output of the tag command. *)
Theorem uploadFile_tag_failure_is_reported
  (basename : string -> string) (NEEDS_ANALYSIS_TAG : string)
  (file : DxCli.SJDTAFile) (projectId remoteFolder : string)
  (stdout : option string) (tag : Utils.exec_result)
  (err result : option string) :
  Utils.innerCallback true tag = (err, result) ->
  let calls :=
    DxCli.finished
      (DxCli.uploadFile_onUpload basename NEEDS_ANALYSIS_TAG file projectId
         remoteFolder (None, stdout) tag) in
  match err with
  | Some e => head calls = Some (Some e, None)
  | None => calls = [(None, result)]
  end.
Proof.
  intros H. unfold DxCli.uploadFile_onUpload. rewrite H.
  destruct err; reflexivity.
Qed.

Lemma uploadFile_tag_failure_is_reported_witness :
  head
    (DxCli.finished
       (DxCli.uploadFile_onUpload (fun s => s) "needs-analysis"
          {| DxCli.path := "sample.bam"; DxCli.raw_size := 1000;
             DxCli.largestReportedProgress := -1;
             DxCli.sizeCheckingLock := false |}
          "project-1" "/uploads" (None, Some "file-1")
          {| Utils.exec_err := None; Utils.exec_stdout := "";
             Utils.exec_stderr := "permission denied" |}))
  = Some (Some "permission denied", None).
Proof.
  apply (uploadFile_tag_failure_is_reported (fun s => s) "needs-analysis"
           _ "project-1" "/uploads" (Some "file-1")
           {| Utils.exec_err := None; Utils.exec_stdout := "";
              Utils.exec_stderr := "permission denied" |}
           (Some "permission denied") None).
  reflexivity.
Defined.

(** C8: on a supported platform [uploadFile] runs the removal of the
    remote path first and starts the upload command after it, however the
    removal ends: done, failed, or not run at all. It always returns. When
    the removal is done, no object is left at the remote path at the start
    of the upload; otherwise the remote objects are as before. *)
Theorem uploadFile_removal_is_best_effort
  (platform : string) (basename : string -> string)
  (env : DxCli.cmd -> DxCli.sync_result)
  (file : DxCli.SJDTAFile) (projectId remoteFolder : string)
  (w : DxCli.world) :
  Utils.supported_platform platform = true ->
  let p := DxCli.dxRemotePath_of basename file projectId remoteFolder in
  let out :=
    DxCli.uploadFile platform basename env file projectId remoteFolder w in
  out.1 = Js.Ok (DxCli.set_largest (-1) file)
  /\ DxCli.effects out.2
     = DxCli.effects w
         ++ [DxCli.RunCommandSync (DxCli.DxRm p); DxCli.SetInterval p;
             DxCli.RunCommand (DxCli.DxUpload p (DxCli.path file))]
  /\ (env (DxCli.DxRm p) = DxCli.Completed -> p ∉ DxCli.remote out.2)
  /\ (env (DxCli.DxRm p) <> DxCli.Completed
      -> DxCli.remote out.2 = DxCli.remote w).
Proof.
  intros Hplat p out. subst out.
  unfold DxCli.uploadFile, DxCli.bind, DxCli.try_catch, DxCli.runCommandSync,
    DxCli.runCommand, DxCli.bind, DxCli.emit, DxCli.ret, DxCli.throw.
  fold p. rewrite Hplat.
  destruct (env (DxCli.DxRm p)) eqn:Henv; simpl;
    rewrite effects_three;
    repeat split; try reflexivity; try congruence.
  intros _ [_ Hp]%elem_of_difference. apply Hp, elem_of_singleton.
  reflexivity.
Qed.

Lemma uploadFile_removal_is_best_effort_witness :
  let p := "project-1: /uploads /sample.bam" in
  let file := {| DxCli.path := "sample.bam"; DxCli.raw_size := 1000;
                 DxCli.largestReportedProgress := 0;
                 DxCli.sizeCheckingLock := false |} in
  let w := {| DxCli.remote := {[p]}; DxCli.local_fs := ∅;
              DxCli.effects := [] |} in
  let out :=
    DxCli.uploadFile "linux" (fun s => s) (fun _ => DxCli.Completed) file
      "project-1" "/uploads" w in
  out.1 = Js.Ok (DxCli.set_largest (-1) file)
  /\ DxCli.effects out.2
     = [DxCli.RunCommandSync (DxCli.DxRm p); DxCli.SetInterval p;
        DxCli.RunCommand (DxCli.DxUpload p "sample.bam")]
  /\ p ∉ DxCli.remote out.2.
Proof.
  intros p file w out.
  destruct (uploadFile_removal_is_best_effort "linux" (fun s => s)
              (fun _ => DxCli.Completed) file "project-1" "/uploads" w
              eq_refl) as (Hret & Heff & Hgone & _).
  split; [exact Hret |]. split; [exact Heff |].
  apply Hgone. reflexivity.
Defined.

(** ** dx.downloadDxFile *)

Lemma placeholder_supported (platform outputPath : string) (c : DxCli.cmd) :
  placeholder platform outputPath = Some c ->
  Utils.supported_platform platform = true.
Proof.
  unfold placeholder, Utils.supported_platform.
  destruct (String.eqb platform "darwin"), (String.eqb platform "linux"),
    (String.eqb platform "win32"); simpl; intros H;
    try reflexivity; discriminate H.
Qed.

Lemma round_of_nothing (fileRawSize : Z) :
  fileRawSize <> 0 ->
  DxCli.downloadDxFile_onChange fileRawSize (Some 0) = Some (Js.of_Z 0).
Proof.
  intros Hraw. unfold DxCli.downloadDxFile_onChange, Js.div, Js.of_Z.
  assert (Js.is_zero (inject_Z fileRawSize) = false) as ->
    by (unfold Js.is_zero; simpl; apply Z.eqb_neq; exact Hraw).
  simpl. unfold Js.of_Z, Js.round_Q. f_equal. f_equal. f_equal.
  assert (inject_Z 0 / inject_Z fileRawSize * inject_Z 100 + (1 # 2)
          == 1 # 2)%Q as ->.
  { unfold Qdiv. rewrite Qmult_0_l, Qmult_0_l, Qplus_0_l. reflexivity. }
  reflexivity.
Qed.

(** C9, as it stands, fails where a file is already at the output path on
    darwin or linux: [touch] leaves the 500 bytes of the file in place, no
    empty file is created, and the download command is started with that
    file at the path; the watcher would report 50 percent for it. *)
Lemma downloadDxFile_keeps_existing_file :
  let w := {| DxCli.remote := ∅;
              DxCli.local_fs := {["/tmp/sample.bam" := 500]};
              DxCli.effects := [] |} in
  let out :=
    DxCli.downloadDxFile "linux" (fun d f => d +:+ "/" +:+ f) (fun s => s)
      (fun _ => DxCli.Completed) "file-1" "sample.bam" 1000 "/tmp" w in
  out.1 = Js.Ok tt
  /\ DxCli.effects out.2
     = [DxCli.RunCommandSync (DxCli.Touch "/tmp/sample.bam");
        DxCli.WatchFile "/tmp/sample.bam";
        DxCli.RunCommand (DxCli.DxDownload "file-1" "/tmp/sample.bam")]
  /\ DxCli.local_fs out.2 !! "/tmp/sample.bam" = Some 500
  /\ DxCli.local_fs out.2 !! "/tmp/sample.bam" <> Some 0
  /\ DxCli.downloadDxFile_onChange 1000 (Some 500) = Some (Js.of_Z 50).
Proof.
  intros w out.
  assert (DxCli.local_fs out.2 !! "/tmp/sample.bam" = Some 500) as Hfs.
  { subst out w. unfold DxCli.downloadDxFile, DxCli.bind,
      DxCli.runCommandSync, DxCli.runCommand, DxCli.bind, DxCli.emit,
      DxCli.ret, DxCli.throw. simpl.
    rewrite lookup_singleton_eq. apply lookup_singleton_eq. }
  split; [reflexivity |]. split; [reflexivity |].
  split; [exact Hfs |]. split; [rewrite Hfs; discriminate |].
  vm_compute. reflexivity.
Qed.

(** C9, amended: [downloadDxFile] starts the download command only after
    the command that creates the placeholder at the output path ([touch] on
    darwin and linux, [New-Item -force] on win32) has run to its end, and
    after the watch on that path is set up. When it returns, a file exists
    at the output path; that file is empty when the path was free before
    or when the platform is win32, and the watcher then reports
    round(0 / fileRawSize * 100) = 0. When it throws, no download command
    was started. The progress reported for a file of [size] bytes is
    round(size / fileRawSize * 100). *)
Theorem downloadDxFile_placeholder_first
  (platform : string) (path_join : string -> string -> string)
  (expandHomeDir : string -> string) (env : DxCli.cmd -> DxCli.sync_result)
  (remoteFileId fileName : string) (fileRawSize : Z)
  (downloadLocation : string) (w : DxCli.world) :
  let outputPath := expandHomeDir (path_join downloadLocation fileName) in
  let download :=
    DxCli.RunCommand (DxCli.DxDownload remoteFileId outputPath) in
  let out :=
    DxCli.downloadDxFile platform path_join expandHomeDir env remoteFileId
      fileName fileRawSize downloadLocation w in
  (forall c, placeholder platform outputPath = Some c ->
             env c = DxCli.Completed -> out.1 = Js.Ok tt)
  /\ match out.1 with
     | Js.Ok _ =>
         exists c,
           placeholder platform outputPath = Some c
           /\ env c = DxCli.Completed
           /\ DxCli.effects out.2
              = DxCli.effects w
                  ++ [DxCli.RunCommandSync c; DxCli.WatchFile outputPath;
                      download]
           /\ is_Some (DxCli.local_fs out.2 !! outputPath)
           /\ (DxCli.local_fs w !! outputPath = None
               \/ c = DxCli.NewItem outputPath ->
               DxCli.local_fs out.2 !! outputPath = Some 0)
     | Js.Exn _ =>
         download ∉ drop (length (DxCli.effects w)) (DxCli.effects out.2)
     end
  /\ (forall size,
        DxCli.downloadDxFile_onChange fileRawSize (Some size)
        = Some (Js.round
                  (Js.mul (Js.div (Js.of_Z size) (Js.of_Z fileRawSize))
                     (Js.of_Z 100))))
  /\ (fileRawSize <> 0 ->
      DxCli.downloadDxFile_onChange fileRawSize (Some 0) = Some (Js.of_Z 0)).
Proof.
  intros outputPath download out.
  split; [| split; [| split; [reflexivity | apply round_of_nothing]]].
  - intros c Hc Hdone. pose proof (placeholder_supported _ _ _ Hc) as Hplat.
    subst out. unfold placeholder in Hc.
    unfold DxCli.downloadDxFile, DxCli.bind, DxCli.runCommandSync,
      DxCli.runCommand, DxCli.bind, DxCli.emit, DxCli.ret, DxCli.throw.
    fold outputPath. rewrite Hplat.
    destruct (String.eqb platform "darwin" || String.eqb platform "linux");
      [| destruct (String.eqb platform "win32"); [| discriminate Hc]];
      injection Hc as <-; rewrite Hdone; reflexivity.
  - subst out.
    unfold DxCli.downloadDxFile, DxCli.bind, DxCli.runCommandSync,
      DxCli.runCommand, DxCli.bind, DxCli.emit, DxCli.ret, DxCli.throw,
      placeholder.
    fold outputPath. unfold Utils.supported_platform.
    destruct (String.eqb platform "darwin" || String.eqb platform "linux")
      eqn:Hunix.
    + destruct (env (DxCli.Touch outputPath)) eqn:Henv; simpl.
      * exists (DxCli.Touch outputPath).
        split; [reflexivity |]. split; [exact Henv |].
        split; [apply effects_three |]. split.
        { destruct (DxCli.local_fs w !! outputPath) eqn:Hfs.
          - rewrite Hfs. eauto.
          - rewrite lookup_insert_eq. eauto. }
        intros [Hfree | Hcmd]; [| discriminate Hcmd].
        rewrite Hfree. apply lookup_insert_eq.
      * rewrite drop_app_length. intros Hin.
        apply list_elem_of_singleton in Hin. discriminate Hin.
      * rewrite drop_app_length. intros Hin.
        apply list_elem_of_singleton in Hin. discriminate Hin.
    + simpl. destruct (String.eqb platform "win32") eqn:Hwin.
      * destruct (env (DxCli.NewItem outputPath)) eqn:Henv; simpl.
        -- exists (DxCli.NewItem outputPath).
           split; [reflexivity |]. split; [exact Henv |].
           split; [apply effects_three |].
           rewrite lookup_insert_eq. split; [eauto | reflexivity].
        -- rewrite drop_app_length. intros Hin.
           apply list_elem_of_singleton in Hin. discriminate Hin.
        -- rewrite drop_app_length. intros Hin.
           apply list_elem_of_singleton in Hin. discriminate Hin.
      * simpl. rewrite drop_all. apply not_elem_of_nil.
Qed.

Lemma downloadDxFile_placeholder_first_witness :
  let w := {| DxCli.remote := ∅; DxCli.local_fs := ∅;
              DxCli.effects := [] |} in
  let out :=
    DxCli.downloadDxFile "linux" (fun d f => d +:+ "/" +:+ f) (fun s => s)
      (fun _ => DxCli.Completed) "file-1" "sample.bam" 1000 "/tmp" w in
  out.1 = Js.Ok tt
  /\ DxCli.effects out.2
     = [DxCli.RunCommandSync (DxCli.Touch "/tmp/sample.bam");
        DxCli.WatchFile "/tmp/sample.bam";
        DxCli.RunCommand (DxCli.DxDownload "file-1" "/tmp/sample.bam")]
  /\ DxCli.local_fs out.2 !! "/tmp/sample.bam" = Some 0
  /\ DxCli.downloadDxFile_onChange 1000 (Some 0) = Some (Js.of_Z 0).
Proof.
  intros w out.
  pose proof (downloadDxFile_placeholder_first "linux"
                (fun d f => d +:+ "/" +:+ f) (fun s => s)
                (fun _ => DxCli.Completed) "file-1" "sample.bam" 1000
                "/tmp" w) as (Hret & _ & _ & Hzero).
  split; [apply (Hret (DxCli.Touch "/tmp/sample.bam")); reflexivity |].
  split; [reflexivity |]. split; [reflexivity |].
  apply Hzero. discriminate.
Defined.

(** ** dx.UploadTransfer *)

Section UploadTransferProperties.

Variable md5 : list Byte.byte -> string.
Variable basename : string -> string.

Local Abbreviation step := (DxApi.step md5 basename).
Local Abbreviation run := (DxApi.run md5 basename).
Local Abbreviation part_events := (DxApi.part_events md5).
Local Abbreviation parts_done := (DxApi.parts_done md5).
Local Abbreviation full_upload := (DxApi.full_upload md5).
Local Abbreviation in_part := (Spec.in_part md5).
Local Abbreviation shape := (Spec.shape md5).
Local Abbreviation inv := (Spec.inv md5).

Lemma view_goto (p : DxApi.pc) (es : list DxApi.event)
  (t : DxApi.UploadTransfer) :
  DxApi.view (DxApi.goto p es t) = DxApi.view t ++ omap DxApi.part_view es.
Proof. unfold DxApi.view. simpl. apply omap_app. Qed.

Lemma close_count_app (l1 l2 : list DxApi.event) :
  close_count (l1 ++ l2) = (close_count l1 + close_count l2)%nat.
Proof. unfold close_count. rewrite List.filter_app, length_app. reflexivity. Qed.

Lemma close_count_view (l : list DxApi.event) :
  close_count (omap DxApi.part_view l) = close_count l.
Proof.
  unfold close_count. induction l as [|e l IH]; [reflexivity |].
  destruct e; simpl; first [exact IH | f_equal; exact IH].
Qed.

Lemma close_count_parts_done id content rs k :
  close_count (parts_done id content rs k) = 0%nat.
Proof.
  induction k as [|k IH]; [reflexivity |].
  simpl. rewrite close_count_app, IH. destruct (rs !! k); reflexivity.
Qed.


Lemma in_part_no_close (t : DxApi.UploadTransfer) (i n : nat) :
  (n <= 4)%nat -> in_part t i n -> close_count (DxApi.log t) = 0%nat.
Proof.
  intros Hn (r & _ & Hview).
  rewrite <- close_count_view. fold (DxApi.view t). rewrite Hview.
  rewrite close_count_app, close_count_parts_done.
  destruct n as [|[|[|[|[|n]]]]]; try reflexivity. lia.
Qed.



Lemma range_eta (r : Utils.IByteRange) :
  {| Utils.range_start := Utils.range_start r;
     Utils.range_end := Utils.range_end r |} = r.
Proof. destruct r. reflexivity. Qed.

(** The head of the loop keeps the shape: after [i] full parts, the part
    at [i] is entered, or the plan is at its end and the object is
    closed. *)
Lemma loop_shape (t : DxApi.UploadTransfer) (i : nat) :
  DxApi.view t
  = parts_done (DxApi.id t) (DxApi.content t) (DxApi.ranges t) i ->
  (i <= length (DxApi.ranges t))%nat ->
  shape (DxApi.loop i t).
Proof.
  intros Hview Hle. unfold DxApi.loop.
  destruct (DxApi.ranges t !! i) as [r|] eqn:Hr.
  - unfold shape. simpl. exists r. split; [exact Hr |].
    rewrite view_goto, Hview. reflexivity.
  - unfold shape. simpl. rewrite view_goto, Hview.
    apply lookup_ge_None in Hr.
    replace (length (DxApi.ranges t)) with i by lia.
    unfold DxApi.full_upload. simpl.
    replace (length (DxApi.ranges t)) with i by lia. reflexivity.
Qed.

Lemma loop_log (t : DxApi.UploadTransfer) (i : nat) :
  exists es,
    DxApi.log (DxApi.loop i t) = DxApi.log t ++ es
    /\ (forall index, DxApi.PartFailed index ∉ es)
    /\ ~ stopped (DxApi.loop i t)
    /\ DxApi.content (DxApi.loop i t) = DxApi.content t
    /\ DxApi.size (DxApi.loop i t) = DxApi.size t
    /\ DxApi.ranges (DxApi.loop i t) = DxApi.ranges t
    /\ DxApi.id (DxApi.loop i t) = DxApi.id t.
Proof.
  unfold DxApi.loop, stopped.
  destruct (DxApi.ranges t !! i) as [r|]; eexists;
    (split; [reflexivity |]); simpl;
    (split; [intros index Hin; repeat (apply elem_of_cons in Hin
               as [Hin | Hin]; [discriminate Hin |]);
             apply elem_of_nil in Hin; exact Hin |]);
    (split; [intros [H | H]; discriminate H |]); repeat split.
Qed.

Ltac no_failure :=
  let index := fresh "index" in
  let Hin := fresh "Hin" in
  intros index Hin;
  repeat (apply elem_of_cons in Hin as [Hin | Hin]; [discriminate Hin |]);
  apply elem_of_nil in Hin; exact Hin.

Lemma goto_quiet (t : DxApi.UploadTransfer) (p : DxApi.pc)
  (es : list DxApi.event) :
  quiet t -> ~ stopped t ->
  (forall index, DxApi.PartFailed index ∉ es) ->
  quiet (DxApi.goto p es t).
Proof.
  intros Hq Hns Hes [index Hin]. simpl in Hin.
  apply elem_of_app in Hin as [Hin | Hin].
  - destruct Hns. apply Hq. exists index. exact Hin.
  - destruct (Hes index Hin).
Qed.

Lemma goto_quiet_stopped (t : DxApi.UploadTransfer) (p : DxApi.pc)
  (es : list DxApi.event) :
  close_count (DxApi.log t) = 0%nat -> close_count es = 0%nat ->
  p = DxApi.Pending \/ p = DxApi.Rejected ->
  quiet (DxApi.goto p es t).
Proof.
  intros Hc Hes Hp _. split; [exact Hp |].
  simpl. rewrite close_count_app. lia.
Qed.

Lemma loop_quiet (t : DxApi.UploadTransfer) (i : nat) :
  quiet t -> ~ stopped t -> quiet (DxApi.loop i t).
Proof.
  intros Hq Hns [index Hin].
  destruct (loop_log t i) as (es & Hlog & Hes & _).
  rewrite Hlog in Hin. apply elem_of_app in Hin as [Hin | Hin].
  - destruct Hns. apply Hq. exists index. exact Hin.
  - destruct (Hes index Hin).
Qed.


Lemma step_inv (t t' : DxApi.UploadTransfer) (i : DxApi.input) :
  inv t -> step t i = Some t' -> inv t'.
Proof.
  intros Hinv Hstep. pose proof Hinv as [Hshape Hquiet]. fold (quiet t) in Hquiet.
  assert (forall p, DxApi.at_pc t = p -> p <> DxApi.Pending ->
                    p <> DxApi.Rejected -> ~ stopped t) as Hns
    by (unfold stopped; intros p -> ? ? [|]; congruence).
  unfold DxApi.step in Hstep. unfold shape in Hshape.
  destruct i.
  - (* start *)
    destruct (DxApi.at_pc t) eqn:Hpc; try discriminate Hstep.
    injection Hstep as <-. split.
    + unfold shape. simpl. rewrite view_goto, Hshape. reflexivity.
    + apply goto_quiet; [exact Hquiet | eapply Hns; eauto; discriminate
                        | no_failure].
  - (* abort *)
    simpl in Hstep. injection Hstep as <-. exact Hinv.
  - (* the parameters of the project *)
    destruct (DxApi.at_pc t) eqn:Hpc; try discriminate Hstep.
    assert (~ stopped t) as Hgo by (eapply Hns; eauto; discriminate).
    destruct maximumPartSize as [maximumPartSize|];
      [destruct (Utils.byteRanges (DxApi.size t) maximumPartSize) as [rs|] |];
      injection Hstep as <-.
    + split.
      * unfold shape. simpl. rewrite view_goto. simpl.
        rewrite app_nil_r. exact Hshape.
      * apply (goto_quiet (DxApi.set_ranges rs t));
          [exact Hquiet | exact Hgo | no_failure].
    + split.
      * unfold shape. simpl. left. rewrite view_goto, Hshape. reflexivity.
      * apply goto_quiet; [exact Hquiet | exact Hgo | no_failure].
    + split.
      * unfold shape. simpl. left. rewrite view_goto, Hshape. reflexivity.
      * apply goto_quiet; [exact Hquiet | exact Hgo | no_failure].
  - (* the new remote object *)
    destruct (DxApi.at_pc t) eqn:Hpc; try discriminate Hstep.
    assert (~ stopped t) as Hgo by (eapply Hns; eauto; discriminate).
    destruct id as [id|]; injection Hstep as <-.
    + split.
      * apply loop_shape; [exact Hshape | lia].
      * apply loop_quiet; [exact Hquiet | exact Hgo].
    + split.
      * unfold shape. simpl. left. rewrite view_goto, Hshape. reflexivity.
      * apply goto_quiet; [exact Hquiet | exact Hgo | no_failure].
  - (* the digest *)
    destruct (DxApi.at_pc t) eqn:Hpc; try discriminate Hstep.
    assert (~ stopped t) as Hgo by (eapply Hns; eauto; discriminate).
    pose proof (in_part_no_close t _ 2 ltac:(lia) Hshape) as Hnc.
    destruct Hshape as (r & Hr & Hview). rewrite Hr in Hstep.
    destruct resolved; injection Hstep as <-.
    + split.
      * unfold shape. simpl. exists r. split; [exact Hr |].
        rewrite view_goto, Hview. simpl. rewrite <- app_assoc. simpl.
        unfold Utils.md5Sum, Utils.range_size. rewrite range_eta.
        reflexivity.
      * apply goto_quiet; [exact Hquiet | exact Hgo | no_failure].
    + split.
      * unfold shape. simpl. right. left. exists i, 2%nat.
        split; [lia |]. exists r. split; [exact Hr |].
        rewrite view_goto, Hview. simpl. rewrite app_nil_r. reflexivity.
      * apply goto_quiet_stopped; [exact Hnc | reflexivity | right; reflexivity].
  - (* the address of the part *)
    destruct (DxApi.at_pc t) eqn:Hpc; try discriminate Hstep.
    assert (~ stopped t) as Hgo by (eapply Hns; eauto; discriminate).
    pose proof (in_part_no_close t _ 3 ltac:(lia) Hshape) as Hnc.
    destruct Hshape as (r & Hr & Hview). rewrite Hr in Hstep.
    destruct url as [url|]; injection Hstep as <-.
    + split.
      * unfold shape. simpl. exists r. split; [exact Hr |].
        rewrite view_goto. simpl. unfold DxApi.view in *. simpl.
        rewrite Hview. rewrite <- app_assoc. reflexivity.
      * apply (goto_quiet (DxApi.set_request _ t));
          [exact Hquiet | exact Hgo | no_failure].
    + split.
      * unfold shape. simpl. right. left. exists i, 3%nat.
        split; [lia |]. exists r. split; [exact Hr |].
        rewrite view_goto, Hview. simpl. rewrite app_nil_r. reflexivity.
      * apply goto_quiet_stopped; [exact Hnc | reflexivity | right; reflexivity].
  - (* the end of the PUT request *)
    destruct (DxApi.at_pc t) eqn:Hpc; try discriminate Hstep.
    assert (~ stopped t) as Hgo by (eapply Hns; eauto; discriminate).
    pose proof (in_part_no_close t _ 4 ltac:(lia) Hshape) as Hnc.
    destruct Hshape as (r & Hr & Hview). rewrite Hr in Hstep.
    destruct error as [e|]; injection Hstep as <-.
    + split.
      * unfold shape. simpl. exists i, r. split; [exact Hr |].
        rewrite view_goto, Hview. simpl. rewrite app_nil_r. reflexivity.
      * apply goto_quiet_stopped; [exact Hnc | reflexivity | left; reflexivity].
    + split.
      * apply loop_shape.
        -- rewrite view_goto. simpl. unfold DxApi.view in *. simpl.
           rewrite Hview, Hr. rewrite <- app_assoc. reflexivity.
        -- simpl. apply lookup_lt_Some in Hr. lia.
      * apply loop_quiet.
        -- apply (goto_quiet (DxApi.set_bytesRead _ t));
             [exact Hquiet | exact Hgo | no_failure].
        -- unfold stopped. simpl. intros [H | H]; discriminate H.
  - (* progress *)
    destruct (DxApi.at_pc t) eqn:Hpc; try discriminate Hstep.
    assert (~ stopped t) as Hgo by (eapply Hns; eauto; discriminate).
    injection Hstep as <-. split.
    + unfold shape. simpl. destruct Hshape as (r & Hr & Hview).
      exists r. split; [exact Hr |].
      rewrite view_goto, Hview. simpl. rewrite app_nil_r. reflexivity.
    + apply goto_quiet; [exact Hquiet | exact Hgo | no_failure].
  - (* the abort event of the PUT request *)
    destruct (DxApi.at_pc t) eqn:Hpc; try discriminate Hstep.
    pose proof (in_part_no_close t _ 4 ltac:(lia) Hshape) as Hnc.
    injection Hstep as <-. split.
    + unfold shape. simpl. destruct Hshape as (r & Hr & Hview).
      exists i, r. split; [exact Hr |].
      rewrite view_goto, Hview. simpl. rewrite app_nil_r. reflexivity.
    + apply goto_quiet_stopped; [exact Hnc | reflexivity | left; reflexivity].
  - (* the close *)
    destruct (DxApi.at_pc t) eqn:Hpc; try discriminate Hstep.
    assert (~ stopped t) as Hgo by (eapply Hns; eauto; discriminate).
    destruct resolved; injection Hstep as <-.
    + split.
      * unfold shape. simpl. rewrite view_goto. simpl.
        rewrite app_nil_r. exact Hshape.
      * apply goto_quiet; [exact Hquiet | exact Hgo | no_failure].
    + split.
      * unfold shape. simpl. right. right. rewrite view_goto. simpl.
        rewrite app_nil_r. exact Hshape.
      * apply goto_quiet; [exact Hquiet | exact Hgo | no_failure].
Qed.

Lemma step_stable (content : list Byte.byte)
  (t t' : DxApi.UploadTransfer) (i : DxApi.input) :
  stable content t -> step t i = Some t' -> stable content t'.
Proof.
  intros (Hc & Hs & Hr) Hstep. unfold DxApi.step in Hstep.
  destruct i.
  2: { simpl in Hstep. injection Hstep as <-. repeat split; assumption. }
  all: destruct (DxApi.at_pc t) eqn:Hpc; try discriminate Hstep.
  all: repeat match type of Hstep with
         | context [match ?x with _ => _ end] => destruct x eqn:?
         end;
       try discriminate Hstep; injection Hstep as <-.
  all: try (repeat split; assumption).
  - (* the plan is set *)
    repeat split; try assumption. right. simpl. eauto.
  - (* the first part is entered *)
    destruct (loop_log (DxApi.set_id s t) 0)
      as (_ & _ & _ & _ & Hc' & Hs' & Hr' & _).
    unfold stable. rewrite Hc', Hs', Hr'. simpl. repeat split; assumption.
  - (* the next part is entered *)
    match goal with
    | |- stable _ (DxApi.loop ?k ?u) =>
        destruct (loop_log u k) as (_ & _ & _ & _ & Hc' & Hs' & Hr' & _)
    end.
    unfold stable. rewrite Hc', Hs', Hr'. simpl. repeat split; assumption.
Qed.

Lemma new_inv (src : string) (content : list Byte.byte) :
  inv (DxApi.new src content) /\ stable content (DxApi.new src content).
Proof.
  split; [split |].
  - reflexivity.
  - intros [index Hin]. apply elem_of_nil in Hin. contradiction.
  - repeat split. left. reflexivity.
Qed.

Lemma run_inv (content : list Byte.byte) (ins : list DxApi.input) :
  forall t t',
    inv t -> stable content t -> run t ins = Some t' ->
    inv t' /\ stable content t'.
Proof.
  induction ins as [|i ins IH]; simpl; intros t t' Hinv Hst Hrun.
  - injection Hrun as <-. split; assumption.
  - destruct (step t i) as [t1|] eqn:Hstep; [| discriminate Hrun].
    apply (IH t1 t'); [eapply step_inv | eapply step_stable |]; eauto.
Qed.

Lemma reachable_inv (src : string) (content : list Byte.byte)
  (ins : list DxApi.input) (t : DxApi.UploadTransfer) :
  run (DxApi.new src content) ins = Some t -> inv t /\ stable content t.
Proof.
  destruct (new_inv src content) as [Hinv Hst].
  apply run_inv; assumption.
Qed.


Lemma run_app (ins1 ins2 : list DxApi.input) :
  forall t t1,
    run t ins1 = Some t1 -> run t (ins1 ++ ins2) = run t1 ins2.
Proof.
  induction ins1 as [|i ins1 IH]; simpl; intros t t1 H.
  - injection H as <-. reflexivity.
  - destruct (step t i) as [t'|]; [| discriminate H]. apply IH. exact H.
Qed.

Lemma faultless_parts (url : string) (k : nat) :
  forall (i : nat) (t : DxApi.UploadTransfer),
    length (DxApi.ranges t) = (i + k)%nat ->
    exists t',
      run (DxApi.loop i t) (concat (replicate k (part_script url))) = Some t'
      /\ DxApi.at_pc t' = DxApi.AwaitClose
      /\ DxApi.ranges t' = DxApi.ranges t.
Proof.
  induction k as [|k IH]; intros i t Hlen.
  - exists (DxApi.loop i t). split; [reflexivity |].
    unfold DxApi.loop.
    rewrite (lookup_ge_None_2 (DxApi.ranges t) i) by lia.
    split; reflexivity.
  - destruct (lookup_lt_is_Some_2 (DxApi.ranges t) i) as [r Hr]; [lia |].
    set (t1 := DxApi.goto (DxApi.AwaitPut i)
                 [DxApi.PutAcknowledged (Z.of_nat i + 1)]
                 (DxApi.set_bytesRead
                    (DxApi.bytesRead t
                     + (Utils.range_end r - Utils.range_start r + 1))
                    (DxApi.goto (DxApi.AwaitPut i)
                       [DxApi.Put url (Utils.slice (DxApi.content t) r)]
                       (DxApi.set_request (Some (Z.of_nat i + 1))
                          (DxApi.goto (DxApi.AwaitUploadUrl i)
                             [DxApi.FileUpload (DxApi.id t) (Z.of_nat i + 1)
                                (Utils.md5Sum md5 (DxApi.content t)
                                   (Utils.range_start r) (Utils.range_end r))
                                (Utils.range_end r - Utils.range_start r + 1)]
                             (DxApi.goto (DxApi.AwaitMd5 i)
                                [DxApi.CreateReadStream (Utils.range_start r)
                                   (Utils.range_end r);
                                 DxApi.Md5Sum (Utils.range_start r)
                                   (Utils.range_end r)] t)))))).
    destruct (IH (S i) t1) as (t' & Hrun & Hpc & Hranges); [simpl; lia |].
    exists t'. split; [| split; [exact Hpc | exact Hranges]].
    rewrite <- Hrun. unfold DxApi.loop at 1. rewrite Hr.
    cbn [replicate concat part_script app DxApi.run].
    unfold DxApi.step at 1. cbn [DxApi.at_pc DxApi.goto DxApi.ranges].
    rewrite Hr.
    unfold DxApi.step at 1.
    cbn [DxApi.at_pc DxApi.goto DxApi.ranges DxApi.id DxApi.content].
    rewrite Hr.
    unfold DxApi.step at 1.
    cbn [DxApi.at_pc DxApi.goto DxApi.ranges DxApi.set_request
         DxApi.bytesRead DxApi.id DxApi.content DxApi.src DxApi.size
         DxApi.request DxApi.log].
    rewrite Hr. reflexivity.
Qed.

(** On a remote side on which nothing fails, [start] returns, for every
    file and every valid maximum part size. *)
Lemma faultless_upload_returns (src : string) (content : list Byte.byte)
  (projectId dst id url : string) (maximumPartSize : Z)
  (plan : list Utils.IByteRange) :
  Utils.byteRanges (Z.of_nat (length content)) maximumPartSize = Some plan ->
  exists t,
    run (DxApi.new src content)
      (faultless projectId dst id url maximumPartSize (length plan)) = Some t
    /\ DxApi.at_pc t = DxApi.Returned
    /\ DxApi.ranges t = plan.
Proof.
  intros Hplan. unfold faultless.
  set (t0 := DxApi.set_id id
               (DxApi.goto DxApi.AwaitNew
                  [DxApi.FileNew dst (basename src) projectId]
                  (DxApi.set_ranges plan
                     (DxApi.goto (DxApi.AwaitParameters projectId dst)
                        [DxApi.ProjectDescribe projectId]
                        (DxApi.new src content))))).
  destruct (faultless_parts url (length plan) 0 t0)
    as (t1 & Hrun & Hpc & Hranges); [reflexivity |].
  exists (DxApi.goto DxApi.Returned [DxApi.FinishedCb None] t1).
  split; [| split; [reflexivity | exact Hranges]].
  cbn [app DxApi.run]. unfold DxApi.step at 1.
  cbn [DxApi.at_pc DxApi.new].
  unfold DxApi.step at 1. cbn [DxApi.at_pc DxApi.goto DxApi.size DxApi.new].
  rewrite Hplan.
  unfold DxApi.step at 1. cbn [DxApi.at_pc DxApi.goto DxApi.set_ranges].
  fold t0. rewrite (run_app _ _ _ _ Hrun).
  cbn [DxApi.run]. unfold DxApi.step. rewrite Hpc. reflexivity.
Qed.






Lemma slice_length (content : list Byte.byte) (r : Utils.IByteRange) :
  0 <= Utils.range_start r -> Utils.range_start r <= Utils.range_end r ->
  Utils.range_end r < Z.of_nat (length content) ->
  Z.of_nat (length (Utils.slice content r))
  = Utils.range_end r - Utils.range_start r + 1.
Proof.
  intros H0 H1 H2. unfold Utils.slice, Utils.range_size.
  rewrite length_take, length_drop. lia.
Qed.

Lemma slice_lookup (content : list Byte.byte) (r : Utils.IByteRange)
  (j : nat) :
  (j < length (Utils.slice content r))%nat ->
  Utils.slice content r !! j
  = content !! (Z.to_nat (Utils.range_start r) + j)%nat.
Proof.
  unfold Utils.slice. intros Hj. rewrite length_take in Hj.
  rewrite lookup_take_lt by lia. apply lookup_drop.
Qed.

Lemma reachable_range (src : string) (content : list Byte.byte)
  (ins : list DxApi.input) (t : DxApi.UploadTransfer) (k : nat)
  (r : Utils.IByteRange) :
  run (DxApi.new src content) ins = Some t ->
  DxApi.ranges t !! k = Some r ->
  DxApi.content t = content
  /\ 0 <= Utils.range_start r /\ Utils.range_start r <= Utils.range_end r
  /\ Utils.range_end r < Z.of_nat (length content).
Proof.
  intros Hrun Hr.
  destruct (reachable_inv _ _ _ _ Hrun) as [_ (Hc & Hs & Hplan)].
  split; [exact Hc |].
  destruct Hplan as [Hnil | [m Hm]].
  - rewrite Hnil in Hr. discriminate Hr.
  - rewrite Hs in Hm. eapply byteRanges_within; [exact Hm |].
    eapply list_elem_of_lookup_2. exact Hr.
Qed.

Ltac off_log H :=
  simpl in H; rewrite <- ?app_assoc in H; apply app_inv_head in H;
  try discriminate H.

(** C6: the step of a transfer that announces a part to the remote side
    is the one on which the digest of the part arrives; the request carries
    the part index k + 1, the digest of the bytes at the offsets start to
    end of the file and the size end - start + 1. The step that starts the
    PUT request comes after it: the last events of the part are then the
    read stream, the digest and the announcement, and the body that is sent
    consists of those same bytes, end - start + 1 of them. *)
Theorem part_digest_precedes_transmission (src : string)
  (content : list Byte.byte) (ins : list DxApi.input)
  (t t' : DxApi.UploadTransfer) (i : DxApi.input) :
  run (DxApi.new src content) ins = Some t ->
  step t i = Some t' ->
  (forall id index digest sz,
     DxApi.log t' = DxApi.log t ++ [DxApi.FileUpload id index digest sz] ->
     exists (k : nat) (r : Utils.IByteRange),
       DxApi.ranges t !! k = Some r
       /\ i = DxApi.RetMd5 true
       /\ id = DxApi.id t
       /\ index = Z.of_nat k + 1
       /\ digest = md5 (Utils.slice content r)
       /\ sz = Utils.range_end r - Utils.range_start r + 1
       /\ DxApi.view t
          = parts_done (DxApi.id t) content (DxApi.ranges t) k
              ++ [DxApi.CreateReadStream (Utils.range_start r)
                    (Utils.range_end r);
                  DxApi.Md5Sum (Utils.range_start r) (Utils.range_end r)])
  /\ (forall url body,
        DxApi.log t' = DxApi.log t ++ [DxApi.Put url body] ->
        exists (k : nat) (r : Utils.IByteRange),
          DxApi.ranges t !! k = Some r
          /\ body = Utils.slice content r
          /\ Z.of_nat (length body)
             = Utils.range_end r - Utils.range_start r + 1
          /\ (forall j : nat, (j < length body)%nat ->
                body !! j
                = content !! (Z.to_nat (Utils.range_start r) + j)%nat)
          /\ DxApi.view t
             = parts_done (DxApi.id t) content (DxApi.ranges t) k
                 ++ [DxApi.CreateReadStream (Utils.range_start r)
                       (Utils.range_end r);
                     DxApi.Md5Sum (Utils.range_start r) (Utils.range_end r);
                     DxApi.FileUpload (DxApi.id t) (Z.of_nat k + 1)
                       (md5 body)
                       (Utils.range_end r - Utils.range_start r + 1)]).
Proof.
  intros Hrun Hstep.
  destruct (reachable_inv _ _ _ _ Hrun) as [[Hshape _] _].
  pose proof (fun k r => reachable_range _ _ _ _ k r Hrun) as Hrange.
  unfold DxApi.step in Hstep. unfold shape in Hshape.
  destruct i.
  2: { simpl in Hstep. injection Hstep as <-.
       split; intros; exfalso;
         match goal with
         | H : DxApi.log t = _ |- _ =>
             rewrite <- (app_nil_r (DxApi.log t)) in H at 1;
             apply app_inv_head in H; discriminate H
         end. }
  all: destruct (DxApi.at_pc t) eqn:Hpc; try discriminate Hstep.
  all: repeat match type of Hstep with
         | context [match ?x with _ => _ end] => destruct x eqn:?
         end;
       try discriminate Hstep; injection Hstep as <-.
  all: try (split; intros ? ? ? ? H || intros ? ? H; unfold DxApi.loop in H;
            repeat match type of H with
              | context [match ?x with _ => _ end] => destruct x
              end;
            off_log H; fail).
  - (* the digest arrives *)
    match goal with
    | H : DxApi.ranges t !! i = Some ?x |- _ => rename x into r0
    end.
    destruct Hshape as (r & Hr & Hview).
    assert (r0 = r) as -> by congruence.
    destruct (Hrange _ _ Hr) as (Hc & H0 & H1 & H2).
    split; [| intros url body H; off_log H].
    intros id index digest sz H. off_log H. injection H as <- <- <- <-.
    exists i, r. rewrite Hview, Hc.
    repeat split; try assumption; reflexivity.
  - (* the PUT request starts *)
    match goal with
    | H : DxApi.ranges t !! i = Some ?x |- _ => rename x into r0
    end.
    destruct Hshape as (r & Hr & Hview).
    assert (r0 = r) as -> by congruence.
    destruct (Hrange _ _ Hr) as (Hc & H0 & H1 & H2).
    split; [intros id index digest sz H; off_log H |].
    intros url' body H. off_log H. injection H as <- <-.
    exists i, r. rewrite Hview, Hc.
    split; [exact Hr |]. split; [reflexivity |].
    split; [apply slice_length; assumption |].
    split; [intros j Hj; apply slice_lookup; exact Hj |].
    reflexivity.
Qed.

(** C3: [abort()] does not reach the PUT request. With the first of two
    parts on its way, [abort()] throws and leaves the transfer as it is:
    the request is still under way. The part is acknowledged, the second
    part is announced and sent after the call of [abort()], the object is
    closed, and the finished callback is called without error; it is never
    called with 'upload aborted'. *)
Theorem abort_leaves_the_request_running :
  let before :=
    [DxApi.CallStart "project-1" "/uploads"; DxApi.RetParameters (Some 2);
     DxApi.RetNew (Some "file-1"); DxApi.RetMd5 true;
     DxApi.RetUploadUrl (Some "url-1")] in
  let after :=
    [DxApi.PutDone None; DxApi.RetMd5 true;
     DxApi.RetUploadUrl (Some "url-2"); DxApi.PutDone None;
     DxApi.RetClose true] in
  (forall t, (DxApi.abort t).2 = t)
  /\ exists t1 t2,
       run (DxApi.new "sample.bam" [Byte.x01; Byte.x02; Byte.x03]) before
       = Some t1
       /\ DxApi.at_pc t1 = DxApi.AwaitPut 0
       /\ DxApi.request t1 = Some 1
       /\ DxApi.abort t1
          = (Js.Exn "TypeError: request.abort is not a function", t1)
       /\ run t1 (DxApi.CallAbort :: after) = Some t2
       /\ DxApi.log t2
          = DxApi.log t1
              ++ [DxApi.PutAcknowledged 1;
                  DxApi.CreateReadStream 2 2; DxApi.Md5Sum 2 2;
                  DxApi.FileUpload "file-1" 2 (md5 [Byte.x03]) 1;
                  DxApi.Put "url-2" [Byte.x03];
                  DxApi.PutAcknowledged 2;
                  DxApi.FileClose "file-1";
                  DxApi.FinishedCb None]
       /\ DxApi.FinishedCb (Some "upload aborted") ∉ DxApi.log t2.
Proof.
  intros before after. split; [reflexivity |].
  eexists. eexists.
  split; [vm_compute; reflexivity |].
  split; [reflexivity |]. split; [reflexivity |]. split; [reflexivity |].
  split; [vm_compute; reflexivity |].
  split; [vm_compute; reflexivity |].
  intros Hin. vm_compute in Hin.
  repeat (apply elem_of_cons in Hin as [Hin | Hin]; [discriminate Hin |]).
  apply elem_of_nil in Hin. exact Hin.
Qed.

End UploadTransferProperties.


Lemma part_digest_precedes_transmission_witness :
  exists t t',
    DxApi.run sample_md5 (fun s => s) sample_transfer
      [DxApi.CallStart "project-1" "/uploads"; DxApi.RetParameters (Some 2);
       DxApi.RetNew (Some "file-1"); DxApi.RetMd5 true] = Some t
    /\ DxApi.step sample_md5 (fun s => s) t (DxApi.RetUploadUrl (Some "url-1"))
       = Some t'
    /\ DxApi.log t'
       = DxApi.log t ++ [DxApi.Put "url-1" [Byte.x01; Byte.x02]]
    /\ exists (k : nat) (r : Utils.IByteRange),
         DxApi.ranges t !! k = Some r
         /\ [Byte.x01; Byte.x02]
            = Utils.slice [Byte.x01; Byte.x02; Byte.x03] r
         /\ Z.of_nat (length [Byte.x01; Byte.x02])
            = Utils.range_end r - Utils.range_start r + 1
         /\ (forall j : nat, (j < length [Byte.x01; Byte.x02])%nat ->
               [Byte.x01; Byte.x02] !! j
               = [Byte.x01; Byte.x02; Byte.x03]
                   !! (Z.to_nat (Utils.range_start r) + j)%nat)
         /\ DxApi.view t
            = DxApi.parts_done sample_md5 (DxApi.id t)
                [Byte.x01; Byte.x02; Byte.x03] (DxApi.ranges t) k
                ++ [DxApi.CreateReadStream (Utils.range_start r)
                      (Utils.range_end r);
                    DxApi.Md5Sum (Utils.range_start r) (Utils.range_end r);
                    DxApi.FileUpload (DxApi.id t) (Z.of_nat k + 1)
                      (sample_md5 [Byte.x01; Byte.x02])
                      (Utils.range_end r - Utils.range_start r + 1)].
Proof.
  eexists. eexists. split; [vm_compute; reflexivity |].
  split; [vm_compute; reflexivity |]. split; [vm_compute; reflexivity |].
  refine (proj2 (part_digest_precedes_transmission sample_md5 (fun s => s)
                   "sample.bam" [Byte.x01; Byte.x02; Byte.x03]
                   [DxApi.CallStart "project-1" "/uploads";
                    DxApi.RetParameters (Some 2);
                    DxApi.RetNew (Some "file-1"); DxApi.RetMd5 true]
                   _ _ (DxApi.RetUploadUrl (Some "url-1")) _ _)
            "url-1" [Byte.x01; Byte.x02] _);
    vm_compute; reflexivity.
Defined.

(** * Further properties *)

Import Spec2.

(** ** utils.runCommand *)


(** ** utils.readableFileSize, further *)

Lemma scale_index (fuel : nat) :
  forall byteCount divisor u,
    u + 1 <= (Utils.scale fuel byteCount divisor u).2 <= u + 1 + Z.of_nat fuel.
Proof.
  induction fuel as [|fuel IH]; intros byteCount divisor u.
  - simpl. lia.
  - cbn [Utils.scale].
    destruct (Js.ge (Js.div byteCount divisor) divisor
              && (u + 1 <? Z.of_nat (length Utils.units) - 1)).
    + specialize (IH (Js.div byteCount divisor) divisor (u + 1)). lia.
    + simpl. lia.
Qed.

(** X2: whatever the arguments are, the text that [readableFileSize]
    returns ends in a blank and a unit, and the unit is B or one of the
    eight units of the table: the index into the table is never out of
    its range. *)
Theorem readableFileSize_unit_in_table (bytes : Js.number)
  (roundNumbers : bool) (divisor : Js.number) :
  exists number unit,
    Utils.readableFileSize bytes roundNumbers divisor
    = number +:+ " " +:+ unit
    /\ (unit = "B" \/ unit ∈ Utils.units).
Proof.
  unfold Utils.readableFileSize.
  destruct (Js.isNaN bytes || Js.strict_eq_zero bytes).
  { exists "0", "GB". split; [reflexivity |]. right.
    unfold Utils.units. set_solver. }
  destruct (Js.lt (Js.abs bytes) divisor).
  { eexists. exists "B". split; [reflexivity | left; reflexivity]. }
  pose proof (scale_index 7 (Js.abs bytes) divisor (-1)) as Hu.
  destruct (Utils.scale 7 (Js.abs bytes) divisor (-1)) as [byteCount u].
  simpl in Hu.
  destruct (lookup_lt_is_Some_2 Utils.units (Z.to_nat u)) as [unit Hunit].
  { simpl. lia. }
  eexists. exists unit. rewrite Hunit. split; [reflexivity |].
  right. eapply list_elem_of_lookup_2. exact Hunit.
Qed.

(** X3: the sign of the byte count does not matter: [readableFileSize]
    returns the same text for [-bytes] as for [bytes]. *)
Theorem readableFileSize_ignores_sign (bytes : Js.number)
  (roundNumbers : bool) (divisor : Js.number) :
  Utils.readableFileSize (JsMath.neg bytes) roundNumbers divisor
  = Utils.readableFileSize bytes roundNumbers divisor.
Proof.
  destruct bytes as [| n | [num den]]; try reflexivity.
  unfold Utils.readableFileSize, JsMath.neg, Js.isNaN, Js.strict_eq_zero,
    Js.is_zero, Js.abs, Qabs, Qopp. simpl Qnum.
  rewrite Z.abs_opp.
  replace (- num =? 0) with (num =? 0); [reflexivity |].
  destruct (Z.eqb_spec num 0), (Z.eqb_spec (- num) 0); try reflexivity; lia.
Qed.




(** ** utils.randomInt *)



(** ** dx.parseDxProjects *)

Lemma parseLine_grows (results : list Projects.SJDTAProject) (el : string) :
  Projects.parseLine results el = results
  \/ exists dxLocation name accessLevel rest,
       Utils.trim el <> EmptyString
       /\ Projects.split Projects.tab el
          = dxLocation :: name :: accessLevel :: rest
       /\ accessLevel <> EmptyString
       /\ Projects.parseLine results el
          = results ++ [{| Projects.project_name := name;
                           Projects.dx_location := dxLocation;
                           Projects.access_level := accessLevel |}].
Proof.
  unfold Projects.parseLine.
  destruct (Utils.trim el) as [|c s] eqn:Htrim; [left; reflexivity |].
  simpl.
  destruct (Projects.split Projects.tab el)
    as [|dxLocation [|name [|accessLevel rest]]]; try (left; reflexivity).
  destruct accessLevel as [|a accessLevel]; [left; reflexivity |].
  right. exists dxLocation, name, (String a accessLevel), rest.
  repeat split; try reflexivity; discriminate.
Qed.

Lemma parse_lines_sound (all : list string) (lines : list string) :
  forall results,
    (forall el, el ∈ lines -> el ∈ all) ->
    let Q := fun p =>
      Projects.access_level p <> EmptyString
      /\ exists el rest,
           el ∈ all /\ Utils.trim el <> EmptyString
           /\ Projects.split Projects.tab el
              = Projects.dx_location p :: Projects.project_name p
                  :: Projects.access_level p :: rest in
    Forall Q results ->
    Forall Q (foldl Projects.parseLine results lines)
    /\ (length (foldl Projects.parseLine results lines)
        <= length results + length lines)%nat.
Proof.
  induction lines as [|el lines IH]; intros results Hsub Q HQ.
  - simpl. split; [exact HQ | lia].
  - simpl.
    assert (forall x, x ∈ lines -> x ∈ all) as Hsub'
      by (intros x Hx; apply Hsub; right; exact Hx).
    destruct (parseLine_grows results el)
      as [-> | (dxLocation & name & accessLevel & rest & Ht & Hs & Ha & ->)].
    + destruct (IH results Hsub' HQ) as [H1 H2]. split; [exact H1 | lia].
    + destruct (IH (results ++ [{| Projects.project_name := name;
                                   Projects.dx_location := dxLocation;
                                   Projects.access_level := accessLevel |}])
                  Hsub') as [H1 H2].
      * apply Forall_app. split; [exact HQ |].
        constructor; [| constructor]. split; [exact Ha |].
        exists el, rest. split; [apply Hsub; left |].
        split; [exact Ht | exact Hs].
      * split; [exact H1 |]. rewrite length_app in H2. simpl in H2. lia.
Qed.

(** X6: every project that [parseDxProjects] returns comes from a line of
    the output that is not blank and has at least three fields between
    tabs: its location, name and access level are the first three fields
    of that line, and its access level is not empty. There are at most as
    many projects as lines. *)
Theorem parseDxProjects_sound (stdout : string) :
  Forall (fun p =>
            Projects.access_level p <> EmptyString
            /\ exists el rest,
                 el ∈ Projects.split Projects.newline stdout
                 /\ Utils.trim el <> EmptyString
                 /\ Projects.split Projects.tab el
                    = Projects.dx_location p :: Projects.project_name p
                        :: Projects.access_level p :: rest)
    (Projects.parseDxProjects stdout)
  /\ (length (Projects.parseDxProjects stdout)
      <= length (Projects.split Projects.newline stdout))%nat.
Proof.
  unfold Projects.parseDxProjects.
  destruct (parse_lines_sound (Projects.split Projects.newline stdout)
              (Projects.split Projects.newline stdout) [])
    as [H1 H2]; [intros el H; exact H | constructor |].
  split; [exact H1 | simpl in H2; exact H2].
Qed.









(** ** dx.downloadDxFile, further *)



(** ** dx.watchRemoteFile, further *)

Lemma sum_parts_from (ps : list (string * option Z)) :
  forall n,
    0 <= n ->
    Forall (fun chunk => match chunk.2 with
                         | Some size => 0 <= size
                         | None => True
                         end) ps ->
    0 <= foldl (fun remoteObjectSize chunk =>
                  match chunk.2 with
                  | Some size =>
                      if size =? 0 then remoteObjectSize
                      else remoteObjectSize + size
                  | None => remoteObjectSize
                  end) n ps.
Proof.
  induction ps as [|[key [size|]] ps IH]; simpl; intros n Hn Hps.
  - exact Hn.
  - inversion Hps as [|? ? Hsize Hrest]; subst. simpl in Hsize.
    apply IH; [| exact Hrest]. destruct (size =? 0); lia.
  - inversion Hps as [|? ? _ Hrest]; subst. apply IH; assumption.
Qed.

Lemma reported_app (es1 es2 : list DxCli.effect) :
  DxCli.reported (es1 ++ es2) = DxCli.reported es1 ++ DxCli.reported es2.
Proof. unfold DxCli.reported. apply omap_app. Qed.

Lemma watch_step_stuck (raw_size : Z) (w w' : DxCli.watcher)
  (e : DxCli.watch_event) :
  stuck raw_size w -> healthy e -> DxCli.watch_step w e = Some w' ->
  stuck raw_size w'.
Proof.
  intros (Hl & Hr & Hrep) He Hstep. destruct e as [|remoteFile].
  - simpl in Hstep. destruct (DxCli.sizeCheckingLock (DxCli.w_file w)).
    + injection Hstep as <-. repeat split; assumption.
    + injection Hstep as <-. unfold stuck. simpl.
      rewrite reported_app. simpl. rewrite app_nil_r.
      repeat split; assumption.
  - simpl in Hstep.
    destruct (DxCli.w_describing w) as [|n]; [discriminate Hstep |].
    unfold DxCli.onDescribe in Hstep.
    destruct remoteFile as [[[ps|]]|]; cbn [DxCli.parts] in Hstep.
    + unfold DxCli.clamp in Hstep. simpl in Hstep, He. rewrite Hl in Hstep.
      pose proof (sum_parts_from ps 0 ltac:(lia) He) as Hsum.
      fold (DxCli.sum_parts ps) in Hsum.
      destruct (Z.ltb_spec (-1) (DxCli.sum_parts ps)) as [_ | Hge]; [| lia].
      injection Hstep as <-. unfold stuck. simpl.
      rewrite reported_app. simpl.
      repeat split; try assumption.
      apply Forall_app. split; [exact Hrep |].
      constructor; [| constructor]. rewrite Hr. reflexivity.
    + injection Hstep as <-. unfold stuck. simpl.
      rewrite app_nil_r. repeat split; assumption.
    + injection Hstep as <-. unfold stuck. simpl.
      rewrite app_nil_r. repeat split; assumption.
Qed.

(** X9: a watcher that starts with -1 as the stored value, as [uploadFile]
    leaves it, never gets off it: as long as the part sizes that describe
    returns are not negative, the stored value stays -1 and every value
    handed to [progressCb] is -1 / raw_size * 100, whatever was uploaded. *)
Theorem watchRemoteFile_never_leaves_start (file : DxCli.SJDTAFile)
  (dxRemotePath : string) (es : list DxCli.watch_event)
  (w : DxCli.watcher) :
  DxCli.largestReportedProgress file = -1 ->
  Forall healthy es ->
  DxCli.watch_run (DxCli.watchRemoteFile file dxRemotePath) es = Some w ->
  DxCli.largestReportedProgress (DxCli.w_file w) = -1
  /\ Forall (fun p =>
               p = Js.mul (Js.div (Js.of_Z (-1))
                             (Js.of_Z (DxCli.raw_size file)))
                     (Js.of_Z 100))
       (DxCli.reported (DxCli.w_effects w)).
Proof.
  intros Hstart Hes Hrun.
  assert (stuck (DxCli.raw_size file) w) as (Hl & _ & Hrep).
  { revert Hrun.
    assert (stuck (DxCli.raw_size file)
              (DxCli.watchRemoteFile file dxRemotePath)) as Hinit
      by (repeat split; [exact Hstart | constructor]).
    revert Hinit. generalize (DxCli.watchRemoteFile file dxRemotePath).
    induction Hes as [|e es He Hes IH]; simpl; intros w0 Hinv Hrun.
    - injection Hrun as <-. exact Hinv.
    - destruct (DxCli.watch_step w0 e) as [w1|] eqn:Hstep;
        [| discriminate Hrun].
      apply (IH w1); [eapply watch_step_stuck; eauto | exact Hrun]. }
  split; [exact Hl | exact Hrep].
Qed.

Lemma watchRemoteFile_never_leaves_start_witness :
  let file := {| DxCli.path := "sample.bam"; DxCli.raw_size := 1000;
                 DxCli.largestReportedProgress := -1;
                 DxCli.sizeCheckingLock := false |} in
  exists w,
    DxCli.watch_run (DxCli.watchRemoteFile file "remote")
      [DxCli.Tick;
       DxCli.DescribeReturns
         (Some {| DxCli.parts := Some [("1", Some 1000)] |})] = Some w
    /\ DxCli.largestReportedProgress (DxCli.w_file w) = -1
    /\ Forall (fun p =>
                 p = Js.mul (Js.div (Js.of_Z (-1)) (Js.of_Z 1000))
                       (Js.of_Z 100))
         (DxCli.reported (DxCli.w_effects w)).
Proof.
  intros file. eexists. split; [vm_compute; reflexivity |].
  apply (watchRemoteFile_never_leaves_start file "remote"
           [DxCli.Tick;
            DxCli.DescribeReturns
              (Some {| DxCli.parts := Some [("1", Some 1000)] |})]).
  - reflexivity.
  - repeat constructor. simpl. lia.
  - vm_compute. reflexivity.
Defined.

(** ** dx.uploadFile, further *)

Lemma innerCallback_shape (raiseOnStderr : bool) (r : Utils.exec_result) :
  (exists e, Utils.innerCallback raiseOnStderr r = (Some e, None))
  \/ (exists out, Utils.innerCallback raiseOnStderr r = (None, Some out)).
Proof.
  unfold Utils.innerCallback.
  destruct (Utils.exec_err r); [left; eauto |].
  destruct (raiseOnStderr && _); [left; eauto |].
  destruct (String.eqb _ _); [left; eauto | right; eauto].
Qed.

(** X10: whatever the upload command and the tag command come to, the
    callbacks of [uploadFile] call [finishedCb] at least once and at most
    twice, and each call comes right after the timer of the watcher was
    cleared. When the upload command fails, the tag command is not started
    and [finishedCb] is called exactly once, with the error of the upload
    and no result. Two calls happen only when the upload went through and
    the tag command failed. *)
Theorem uploadFile_callbacks (basename : string -> string)
  (NEEDS_ANALYSIS_TAG : string) (file : DxCli.SJDTAFile)
  (projectId remoteFolder : string) (upload tag : Utils.exec_result) :
  let es :=
    DxCli.uploadFile_onUpload basename NEEDS_ANALYSIS_TAG file projectId
      remoteFolder (Utils.innerCallback true upload) tag in
  (1 <= length (DxCli.finished es) <= 2)%nat
  /\ guarded false es = true
  /\ (forall e, (Utils.innerCallback true upload).1 = Some e ->
        es = [DxCli.ClearInterval; DxCli.FinishedCb (Some e) None]
        /\ existsb tags es = false)
  /\ (length (DxCli.finished es) = 2%nat ->
      (Utils.innerCallback true upload).1 = None
      /\ exists e, (Utils.innerCallback true tag).1 = Some e).
Proof.
  intros es. subst es. unfold DxCli.uploadFile_onUpload.
  destruct (innerCallback_shape true upload) as [[e ->] | [out ->]].
  - simpl. split; [lia |]. split; [reflexivity |].
    split; [intros e' [= <-]; split; reflexivity | intros H; discriminate H].
  - unfold DxCli.uploadFile_onTag.
    destruct (innerCallback_shape true tag) as [[e ->] | [out' ->]]; simpl.
    + split; [lia |]. split; [reflexivity |].
      split; [intros e' H; discriminate H |].
      intros _. split; [reflexivity | eauto].
    + split; [lia |]. split; [reflexivity |].
      split; [intros e' H; discriminate H | intros H; discriminate H].
Qed.

(** ** dx.UploadTransfer, further *)

Section UploadTransferFurther.

Variable md5 : list Byte.byte -> string.
Variable basename : string -> string.

Local Abbreviation step := (DxApi.step md5 basename).
Local Abbreviation run := (DxApi.run md5 basename).

Lemma calls_app (l1 l2 : list DxApi.event) :
  calls (l1 ++ l2) = calls l1 ++ calls l2.
Proof. unfold calls. apply omap_app. Qed.

Lemma loop_reported (t : DxApi.UploadTransfer) (i : nat) :
  calls (DxApi.log t) = [] -> reported_as_due (DxApi.loop i t).
Proof.
  intros H. unfold DxApi.loop, reported_as_due.
  destruct (DxApi.ranges t !! i); simpl; rewrite calls_app, H; reflexivity.
Qed.

Lemma step_reported (t t' : DxApi.UploadTransfer) (i : DxApi.input) :
  reported_as_due t -> step t i = Some t' -> reported_as_due t'.
Proof.
  intros H Hstep. unfold DxApi.step in Hstep.
  destruct i.
  2: { simpl in Hstep. injection Hstep as <-. exact H. }
  all: unfold reported_as_due in H;
       destruct (DxApi.at_pc t) eqn:Hpc; try discriminate Hstep.
  all: repeat match type of Hstep with
         | context [match ?x with _ => _ end] => destruct x eqn:?
         end;
       try discriminate Hstep; injection Hstep as <-.
  all: try (apply loop_reported; simpl; rewrite ?calls_app;
            simpl; rewrite ?H; reflexivity).
  all: unfold reported_as_due; simpl; rewrite ?calls_app; simpl;
       rewrite ?H; simpl; eauto.
Qed.

Lemma total_size_app (l1 l2 : list Utils.IByteRange) :
  total_size (l1 ++ l2) = total_size l1 + total_size l2.
Proof.
  unfold total_size. induction l1 as [|r l1 IH]; simpl; [reflexivity |].
  rewrite IH. lia.
Qed.

Lemma loop_read (t : DxApi.UploadTransfer) (i : nat) :
  DxApi.bytesRead t = total_size (take i (DxApi.ranges t)) ->
  read_as_due (DxApi.loop i t).
Proof.
  intros H. unfold DxApi.loop, read_as_due.
  destruct (DxApi.ranges t !! i) eqn:Hr; simpl; [exact H |].
  rewrite H. apply lookup_ge_None in Hr. rewrite take_ge by lia.
  reflexivity.
Qed.

Lemma step_read (t t' : DxApi.UploadTransfer) (i : DxApi.input) :
  read_as_due t -> step t i = Some t' -> read_as_due t'.
Proof.
  intros H Hstep. unfold DxApi.step in Hstep.
  destruct i.
  2: { simpl in Hstep. injection Hstep as <-. exact H. }
  all: unfold read_as_due in H;
       destruct (DxApi.at_pc t) eqn:Hpc; try discriminate Hstep.
  all: repeat match type of Hstep with
         | context [match ?x with _ => _ end] => destruct x eqn:?
         end;
       try discriminate Hstep; injection Hstep as <-.
  all: try (unfold read_as_due; simpl; first [exact H | eauto]; fail).
  - (* the parameters fail *)
    unfold read_as_due. simpl. exists 0%nat. rewrite H. reflexivity.
  - unfold read_as_due. simpl. exists 0%nat. rewrite H. reflexivity.
  - (* the first part *)
    apply loop_read. simpl. rewrite H. reflexivity.
  - (* no remote object *)
    unfold read_as_due. simpl. exists 0%nat. rewrite H. reflexivity.
  - (* a part is acknowledged *)
    apply loop_read. simpl. rewrite H.
    match goal with
    | Hr : DxApi.ranges t !! _ = Some _ |- _ =>
        rewrite (take_S_r _ _ _ Hr)
    end.
    rewrite total_size_app.
    match goal with
    | |- context [total_size [?r]] =>
        change (total_size [r]) with (Utils.range_size r + 0)
    end.
    unfold Utils.range_size. lia.
  - (* the close fails *)
    unfold read_as_due. simpl. exists (length (DxApi.ranges t)).
    rewrite firstn_all. exact H.
Qed.

Lemma run_further (ins : list DxApi.input) :
  forall t t',
    reported_as_due t -> read_as_due t -> run t ins = Some t' ->
    reported_as_due t' /\ read_as_due t'.
Proof.
  induction ins as [|i ins IH]; simpl; intros t t' H1 H2 Hrun.
  - injection Hrun as <-. split; assumption.
  - destruct (step t i) as [t1|] eqn:Hstep; [| discriminate Hrun].
    apply (IH t1 t'); [eapply step_reported | eapply step_read |]; eauto.
Qed.

Lemma reachable_further (src : string) (content : list Byte.byte)
  (ins : list DxApi.input) (t : DxApi.UploadTransfer) :
  run (DxApi.new src content) ins = Some t ->
  reported_as_due t /\ read_as_due t.
Proof. apply run_further; reflexivity. Qed.

(** X11: however the remote side answers, [finishedCb] is called at most
    once. It is called without error exactly when [start] has returned.
    When [start] is rejected (the parameters of the project, the new
    object, a digest, the address of a part or the close failed) it is
    not called at all: nobody is told that the upload is over. When the
    promise of [transfer] stays pending it was called once, with an
    error. *)
Theorem finishedCb_at_most_once (src : string) (content : list Byte.byte)
  (ins : list DxApi.input) (t : DxApi.UploadTransfer) :
  run (DxApi.new src content) ins = Some t ->
  (length (calls (DxApi.log t)) <= 1)%nat
  /\ (calls (DxApi.log t) = [None] <-> DxApi.at_pc t = DxApi.Returned)
  /\ (DxApi.at_pc t = DxApi.Rejected -> calls (DxApi.log t) = [])
  /\ (DxApi.at_pc t = DxApi.Pending ->
      exists e, calls (DxApi.log t) = [Some e]).
Proof.
  intros Hrun. destruct (reachable_further _ _ _ _ Hrun) as [H _].
  unfold reported_as_due in H.
  destruct (DxApi.at_pc t) as [| ? ? | | ? | ? | ? | | | |].
  7: destruct H as [e H].
  all: rewrite H; simpl; repeat split; intros;
       try lia; try discriminate; try reflexivity; eauto.
Qed.

(** X12: [bytesRead] counts the bytes of the parts that were acknowledged:
    while the part at position i of the plan is on its way it is the size
    of the i ranges before it, and after the last part it is the size of
    the whole plan. So the progress that a drain event reports during part
    i is (size of the ranges before i + bytesWritten) / size * 100. *)
Theorem bytesRead_counts_acknowledged (src : string)
  (content : list Byte.byte) (ins : list DxApi.input)
  (t : DxApi.UploadTransfer) :
  run (DxApi.new src content) ins = Some t ->
  (forall i,
     DxApi.at_pc t = DxApi.AwaitMd5 i
     \/ DxApi.at_pc t = DxApi.AwaitUploadUrl i
     \/ DxApi.at_pc t = DxApi.AwaitPut i ->
     DxApi.bytesRead t = total_size (take i (DxApi.ranges t)))
  /\ (DxApi.at_pc t = DxApi.AwaitClose \/ DxApi.at_pc t = DxApi.Returned ->
      DxApi.bytesRead t = total_size (DxApi.ranges t))
  /\ (forall i bytesWritten,
        DxApi.at_pc t = DxApi.AwaitPut i ->
        exists t',
          step t (DxApi.PutDrain bytesWritten) = Some t'
          /\ DxApi.log t'
             = DxApi.log t
                 ++ [DxApi.ProgressCb
                       (Js.mul
                          (Js.div
                             (Js.of_Z
                                (total_size (take i (DxApi.ranges t))
                                 + bytesWritten))
                             (Js.of_Z (DxApi.size t)))
                          (Js.of_Z 100))]).
Proof.
  intros Hrun. destruct (reachable_further _ _ _ _ Hrun) as [_ H].
  unfold read_as_due in H. split; [| split].
  - intros i [Hpc | [Hpc | Hpc]]; rewrite Hpc in H; exact H.
  - intros [Hpc | Hpc]; rewrite Hpc in H; exact H.
  - intros i bytesWritten Hpc. rewrite Hpc in H.
    unfold DxApi.step. rewrite Hpc. eexists. split; [reflexivity |].
    simpl. rewrite H. reflexivity.
Qed.

End UploadTransferFurther.

Lemma finishedCb_at_most_once_witness :
  exists t,
    DxApi.run sample_md5 (fun s => s) sample_transfer
      [DxApi.CallStart "project-1" "/uploads"; DxApi.RetParameters (Some 2);
       DxApi.RetNew None] = Some t
    /\ DxApi.at_pc t = DxApi.Rejected
    /\ calls (DxApi.log t) = [].
Proof.
  eexists. split; [vm_compute; reflexivity |]. split; [reflexivity |].
  refine (proj1 (proj2 (proj2
            (finishedCb_at_most_once sample_md5 (fun s => s) "sample.bam"
               [Byte.x01; Byte.x02; Byte.x03]
               [DxApi.CallStart "project-1" "/uploads";
                DxApi.RetParameters (Some 2); DxApi.RetNew None] _ _))) _).
  - vm_compute. reflexivity.
  - reflexivity.
Defined.

Lemma bytesRead_counts_acknowledged_witness :
  exists t,
    DxApi.run sample_md5 (fun s => s) sample_transfer
      [DxApi.CallStart "project-1" "/uploads"; DxApi.RetParameters (Some 2);
       DxApi.RetNew (Some "file-1"); DxApi.RetMd5 true;
       DxApi.RetUploadUrl (Some "url-1"); DxApi.PutDone None;
       DxApi.RetMd5 true; DxApi.RetUploadUrl (Some "url-2")] = Some t
    /\ DxApi.at_pc t = DxApi.AwaitPut 1
    /\ DxApi.bytesRead t = 2.
Proof.
  eexists. split; [vm_compute; reflexivity |]. split; [reflexivity |].
  etrans.
  - refine (proj1 (bytesRead_counts_acknowledged sample_md5 (fun s => s)
                     "sample.bam" [Byte.x01; Byte.x02; Byte.x03]
                     [DxApi.CallStart "project-1" "/uploads";
                      DxApi.RetParameters (Some 2);
                      DxApi.RetNew (Some "file-1"); DxApi.RetMd5 true;
                      DxApi.RetUploadUrl (Some "url-1"); DxApi.PutDone None;
                      DxApi.RetMd5 true; DxApi.RetUploadUrl (Some "url-2")]
                     _ _) 1%nat _).
    + vm_compute. reflexivity.
    + right. right. reflexivity.
  - vm_compute. reflexivity.
Defined.

(** ** dx.installDxToolkit *)

(** X13: when [installDxToolkit] does not throw, its callback is called at
    most once, and the progress that it shows is a beginning of 30%, 60%,
    90%, 100%. The callback reports success only if the platform has a
    download in the configuration and the digest that was computed of the
    download is the one the configuration expects; all four steps were
    then shown. 100% is shown only together with success. *)
Theorem installDxToolkit_verifies_download
  (MAC UBUNTU_12 UBUNTU_14 WINDOWS : Install.dxDownloadInfo)
  (tarPath exePath parentDir : string) (env : Install.install_env)
  (es : list Install.install_effect) :
  Install.installDxToolkit MAC UBUNTU_12 UBUNTU_14 WINDOWS tarPath exePath
    parentDir env = Js.Ok es ->
  (length (Install.callbacks es) <= 1)%nat
  /\ Install.shown es `prefix_of` ["30%"; "60%"; "90%"; "100%"]
  /\ (Install.CallbackSuccess ∈ es ->
      exists platform info,
        Install.install_platform env = Some platform
        /\ Install.dxToolkitDownloadInfo MAC UBUNTU_12 UBUNTU_14 WINDOWS
             platform = Js.Ok info
        /\ Install.sha env = Install.ShaHash (Install.hash info)
        /\ Install.shown es = ["30%"; "60%"; "90%"; "100%"])
  /\ ("100%" ∈ Install.shown es -> Install.CallbackSuccess ∈ es).
Proof.
  unfold Install.installDxToolkit. intros H.
  destruct (Install.install_platform env) as [platform|] eqn:Hplat;
    [| discriminate H].
  destruct (String.length platform =? 0)%nat; [discriminate H |].
  destruct (Install.dxToolkitDownloadInfo MAC UBUNTU_12 UBUNTU_14 WINDOWS
              platform) as [info|] eqn:Hinfo; [| discriminate H].
  injection H as <-.
  assert (forall (x : Install.install_effect) l, x ∈ l -> In x l) as Hin
    by (intros x l Hx; apply list_elem_of_In; exact Hx).
  assert (forall (x : string) l, x ∈ l -> In x l) as Hins
    by (intros x l Hx; apply list_elem_of_In; exact Hx).
  unfold Install.onDownload, Install.onSHA256, Install.onUntar.
  destruct (Install.download_ends env);
    [destruct (Install.sha env) as [| err | h] eqn:Hsha;
     [| | destruct (String.eqb_spec h (Install.hash info)) as [-> | Hne];
          [destruct (String.eqb platform "win32");
           [destruct (Install.installer_runs env)
           | destruct (Install.untar_error env)] |]] |];
    simpl.
  all: split; [lia |].
  all: split;
    [first [ reflexivity
           | exists ["60%"; "90%"; "100%"]; reflexivity
           | exists ["90%"; "100%"]; reflexivity
           | exists ["100%"]; reflexivity ] |].
  all: split;
    [intros Hs; apply Hin in Hs; simpl in Hs;
     first [ exists platform, info;
             split; [reflexivity |]; split; [exact Hinfo |];
             split; reflexivity
           | exfalso; intuition discriminate ]
    | intros Hs; apply Hins in Hs; simpl in Hs;
      first [ apply list_elem_of_In; simpl; tauto
            | exfalso; intuition discriminate ]].
Qed.

Lemma installDxToolkit_verifies_download_witness :
  let info := {| Install.url := "https://example.org/dx.tar.gz";
                 Install.hash := "abc" |} in
  let env := {| Install.os_platform := "darwin";
                Install.ubuntu_version := None;
                Install.download_ends := true;
                Install.sha := Install.ShaHash "abd";
                Install.installer_runs := true;
                Install.untar_error := None |} in
  exists es,
    Install.installDxToolkit info info info info "/tmp/dx.tar.gz"
      "C:/dx.exe" "/home/me" env = Js.Ok es
    /\ Install.callbacks es
       = [Install.CallbackError "Could not verify download (hash mismatch)!"]
    /\ (length (Install.callbacks es) <= 1)%nat
    /\ Install.shown es `prefix_of` ["30%"; "60%"; "90%"; "100%"].
Proof.
  intros info env. eexists. split; [reflexivity |].
  split; [reflexivity |].
  destruct (installDxToolkit_verifies_download info info info info
              "/tmp/dx.tar.gz" "C:/dx.exe" "/home/me" env _ eq_refl)
    as (H1 & H2 & _).
  split; [exact H1 | exact H2].
Defined.

(** ** store: cancelCheckedFiles *)

Lemma cancel_one (t : Store.file) :
  let t1 := if Store.in_transfer t then Store.cancel_transfer t else t in
  let t' := if Store.in_waiting t1 then Store.cancel_waiting t1 else t1 in
  Store.path t' = Store.path t
  /\ Store.dx_location t' = Store.dx_location t
  /\ Store.finished t' = Store.finished t
  /\ Store.status t' = Store.status t
  /\ (Store.checked t = false \/ Store.finished t = true -> t' = t)
  /\ (Store.in_transfer t = true ->
      Store.cancelled t' = true
      /\ (JsMath.le (Store.status t) (Js.of_Z 0) = true ->
          Store.errored t' = true))
  /\ (Store.in_waiting t = true ->
      Store.cancelled t' = true /\ Store.checked t' = false
      /\ Store.started t' = false /\ Store.waiting t' = false
      /\ Store.progress t' = Js.of_Z 0)
  /\ Store.in_waiting t' = false.
Proof.
  destruct t as [p d c s f w ca e st pr].
  unfold Store.in_transfer, Store.in_waiting, Store.cancel_transfer,
    Store.cancel_waiting.
  destruct c, s, f, w;
    destruct (Js.strict_eq_zero st) eqn:Hzero;
    destruct (JsMath.le st (Js.of_Z 0)) eqn:Hle;
    simpl; rewrite ?Hzero, ?Hle; simpl; rewrite ?Hzero, ?Hle; simpl;
    repeat split; try reflexivity; try discriminate;
    try (intros [H | H]; first [discriminate H | reflexivity]);
    intros; repeat split; try discriminate; try reflexivity;
    try assumption.
Qed.

(** X14: [cancelCheckedFiles] keeps the files in their places. A file that
    is not checked, or that is finished, is left as it is. A file that is
    checked, started and not finished ends up cancelled, and errored as
    well when its status was at most 0. A file that is checked, not
    finished and waiting or at status 0 ends up cancelled, unchecked, not
    started, not waiting and at progress 0. Afterwards no file is left
    that is checked, unfinished and waiting or at status 0. *)
Theorem cancelCheckedFiles_marks_files (currPath : string)
  (operationUploadProcesses operationDownloadProcesses : gset string)
  (files : list Store.file) :
  let files' :=
    (Store.cancelCheckedFiles currPath operationUploadProcesses
       operationDownloadProcesses files).1 in
  length files' = length files
  /\ Forall (fun t' => Store.in_waiting t' = false) files'
  /\ forall (n : nat) t,
       files !! n = Some t ->
       exists t',
         files' !! n = Some t'
         /\ Store.path t' = Store.path t
         /\ Store.finished t' = Store.finished t
         /\ Store.status t' = Store.status t
         /\ (Store.checked t = false \/ Store.finished t = true -> t' = t)
         /\ (Store.in_transfer t = true ->
             Store.cancelled t' = true
             /\ (JsMath.le (Store.status t) (Js.of_Z 0) = true ->
                 Store.errored t' = true))
         /\ (Store.in_waiting t = true ->
             Store.cancelled t' = true /\ Store.checked t' = false
             /\ Store.started t' = false /\ Store.waiting t' = false
             /\ Store.progress t' = Js.of_Z 0).
Proof.
  intros files'. subst files'. unfold Store.cancelCheckedFiles. simpl.
  split; [rewrite !length_map; reflexivity |]. split.
  - rewrite Forall_forall. intros t' Hin.
    apply list_elem_of_fmap in Hin as (t1 & -> & Hin).
    apply list_elem_of_fmap in Hin as (t & -> & _).
    apply (cancel_one t).
  - intros n t Hn.
    eexists. split.
    + rewrite !list_lookup_fmap, Hn. reflexivity.
    + destruct (cancel_one t) as (H1 & _ & H3 & H4 & H5 & H6 & H7 & _).
      split; [exact H1 |]. split; [exact H3 |]. split; [exact H4 |].
      split; [exact H5 |]. split; [exact H6 | exact H7].
Qed.

(** X15: [cancelCheckedFiles] asks the backend to stop exactly the
    transfers it should: an upload process is aborted (or killed) if and
    only if the current path is 'upload' and the process is that of a file
    that is checked, started and not finished; no download token is
    cancelled then. The queue is cleared of the tasks of the current path
    when that path is 'upload' or 'download'. *)
Theorem cancelCheckedFiles_stops_transfers (currPath : string)
  (operationUploadProcesses operationDownloadProcesses : gset string)
  (files : list Store.file) :
  let requests :=
    (Store.cancelCheckedFiles currPath operationUploadProcesses
       operationDownloadProcesses files).2 in
  (forall p,
     Store.AbortOrKill p ∈ requests
     <-> currPath = "upload" /\ p ∈ operationUploadProcesses
         /\ exists t, t ∈ files /\ Store.in_transfer t = true
                      /\ Store.path t = p)
  /\ (forall d,
        Store.CancelToken d ∈ requests
        <-> currPath = "download" /\ d ∈ operationDownloadProcesses
            /\ exists t, t ∈ files /\ Store.in_transfer t = true
                         /\ Store.dx_location t = d)
  /\ (forall kind,
        Store.RemoveAllTaskOfType kind ∈ requests
        <-> kind = currPath
            /\ (currPath = "upload" \/ currPath = "download")).
Proof.
  intros requests. subst requests. unfold Store.cancelCheckedFiles. simpl.
  assert (forall t, t ∈ List.filter Store.in_transfer files
                    <-> t ∈ files /\ Store.in_transfer t = true) as Hfilter.
  { intros t. rewrite !list_elem_of_In. apply List.filter_In. }
  assert (forall r,
            r ∈ (if String.eqb currPath "upload"
                    || String.eqb currPath "download"
                 then [Store.RemoveAllTaskOfType currPath] else [])
            <-> r = Store.RemoveAllTaskOfType currPath
                /\ (currPath = "upload" \/ currPath = "download")) as Hhead.
  { intros r.
    destruct (String.eqb_spec currPath "upload") as [Hu | Hu];
      destruct (String.eqb_spec currPath "download") as [Hd | Hd]; simpl;
      rewrite ?list_elem_of_singleton, ?elem_of_nil; intuition congruence. }
  assert (forall r,
            r ∈ omap (Store.stop_request currPath operationUploadProcesses
                        operationDownloadProcesses)
                  (List.filter Store.in_transfer files)
            <-> exists t, t ∈ files /\ Store.in_transfer t = true
                          /\ Store.stop_request currPath
                               operationUploadProcesses
                               operationDownloadProcesses t = Some r)
    as Htail.
  { intros r. rewrite list_elem_of_omap. split.
    - intros (t & Ht & Hr). apply Hfilter in Ht as [Ht Hin]. eauto.
    - intros (t & Ht & Hin & Hr). exists t. split; [| exact Hr].
      apply Hfilter. split; assumption. }
  split; [| split].
  - intros p. rewrite elem_of_app, Hhead, Htail. split.
    + intros [[H _] | (t & Ht & Hin & Hr)]; [discriminate H |].
      unfold Store.stop_request in Hr.
      destruct (String.eqb_spec currPath "upload") as [Hu | Hu].
      * destruct (decide (Store.path t ∈ operationUploadProcesses));
          [| discriminate Hr].
        injection Hr as <-. eauto 10.
      * destruct (String.eqb currPath "download"); [| discriminate Hr].
        destruct (decide _); discriminate Hr.
    + intros (Hu & Hp & t & Ht & Hin & <-). right.
      exists t. split; [exact Ht |]. split; [exact Hin |].
      unfold Store.stop_request. subst currPath. simpl.
      destruct (decide (Store.path t ∈ operationUploadProcesses));
        [reflexivity | contradiction].
  - intros d. rewrite elem_of_app, Hhead, Htail. split.
    + intros [[H _] | (t & Ht & Hin & Hr)]; [discriminate H |].
      unfold Store.stop_request in Hr.
      destruct (String.eqb_spec currPath "upload") as [Hu | Hu].
      * destruct (decide _); discriminate Hr.
      * destruct (String.eqb_spec currPath "download") as [Hd | Hd];
          [| discriminate Hr].
        destruct (decide (Store.dx_location t ∈ operationDownloadProcesses));
          [| discriminate Hr].
        injection Hr as <-. eauto 10.
    + intros (Hd & Hp & t & Ht & Hin & <-). right.
      exists t. split; [exact Ht |]. split; [exact Hin |].
      unfold Store.stop_request. subst currPath. simpl.
      destruct (decide (Store.dx_location t ∈ operationDownloadProcesses));
        [reflexivity | contradiction].
  - intros kind. rewrite elem_of_app, Hhead, Htail. split.
    + intros [[H Hc] | (t & Ht & Hin & Hr)].
      * injection H as ->. split; [reflexivity | exact Hc].
      * unfold Store.stop_request in Hr.
        destruct (String.eqb currPath "upload");
          [destruct (decide _); discriminate Hr |].
        destruct (String.eqb currPath "download"); [| discriminate Hr].
        destruct (decide _); discriminate Hr.
    + intros [-> Hc]. left. split; [reflexivity | exact Hc].
Qed.

(** ** dx.watchRemoteFile: what is started and what is reported *)

Lemma describes_app (es1 es2 : list DxCli.effect) :
  describes (es1 ++ es2) = (describes es1 + describes es2)%nat.
Proof. unfold describes. rewrite List.filter_app, length_app. reflexivity. Qed.

Lemma watch_run_accounts (es : list DxCli.watch_event) :
  forall w w',
    DxCli.watch_run w es = Some w' ->
    (describes (DxCli.w_effects w') + DxCli.w_describing w
     = describes (DxCli.w_effects w) + returns es + DxCli.w_describing w')%nat
    /\ (length (DxCli.reported (DxCli.w_effects w'))
        <= length (DxCli.reported (DxCli.w_effects w)) + returns es)%nat.
Proof.
  induction es as [|e es IH]; simpl; intros w w' Hrun.
  - injection Hrun as <-. unfold returns. simpl. lia.
  - destruct (DxCli.watch_step w e) as [w1|] eqn:Hstep; [| discriminate Hrun].
    destruct (IH w1 w' Hrun) as [H1 H2].
    destruct e as [|remoteFile]; simpl in Hstep.
    + assert (returns (DxCli.Tick :: es) = returns es) as -> by reflexivity.
      destruct (DxCli.sizeCheckingLock (DxCli.w_file w)).
      * injection Hstep as <-. split; assumption.
      * injection Hstep as <-. simpl in H1, H2.
        rewrite describes_app in H1. rewrite reported_app in H2.
        simpl in H1, H2. rewrite app_nil_r in H2.
        change (describes [DxCli.DescribeDXItem (DxCli.w_dxRemotePath w)])
          with 1%nat in H1.
        split; lia.
    + assert (returns (DxCli.DescribeReturns remoteFile :: es)
              = S (returns es)) as -> by reflexivity.
      destruct (DxCli.w_describing w) as [|n]; [discriminate Hstep |].
      destruct (DxCli.onDescribe (DxCli.w_file w) remoteFile)
        as [file progress].
      injection Hstep as <-. simpl in H1, H2.
      rewrite describes_app in H1. rewrite reported_app, length_app in H2.
      assert (describes match progress with
                        | Some p => [DxCli.ProgressCb p]
                        | None => []
                        end = 0%nat) as Hd by (destruct progress; reflexivity).
      assert (length (DxCli.reported match progress with
                                     | Some p => [DxCli.ProgressCb p]
                                     | None => []
                                     end) <= 1)%nat as Hr
        by (destruct progress; simpl; lia).
      rewrite Hd in H1. split; lia.
Qed.

(** X16: in every run of the watcher, each describe call that was started
    has either returned or is still under way, and the progress callback
    was called at most once for each describe call that returned: the
    watcher reports nothing on its own. *)
Theorem watchRemoteFile_accounts (file : DxCli.SJDTAFile)
  (dxRemotePath : string) (es : list DxCli.watch_event)
  (w : DxCli.watcher) :
  DxCli.watch_run (DxCli.watchRemoteFile file dxRemotePath) es = Some w ->
  describes (DxCli.w_effects w) = (returns es + DxCli.w_describing w)%nat
  /\ (length (DxCli.reported (DxCli.w_effects w)) <= returns es)%nat.
Proof.
  intros Hrun. destruct (watch_run_accounts es _ _ Hrun) as [H1 H2].
  simpl in H1, H2. split; lia.
Qed.

Lemma watchRemoteFile_accounts_witness :
  let file := {| DxCli.path := "sample.bam"; DxCli.raw_size := 1000;
                 DxCli.largestReportedProgress := -1;
                 DxCli.sizeCheckingLock := false |} in
  exists w,
    DxCli.watch_run (DxCli.watchRemoteFile file "remote")
      [DxCli.Tick; DxCli.Tick; DxCli.DescribeReturns None; DxCli.Tick]
    = Some w
    /\ describes (DxCli.w_effects w) = 2%nat
    /\ DxCli.w_describing w = 1%nat
    /\ DxCli.reported (DxCli.w_effects w) = [].
Proof.
  intros file. eexists. split; [vm_compute; reflexivity |].
  pose proof (watchRemoteFile_accounts file "remote"
                [DxCli.Tick; DxCli.Tick; DxCli.DescribeReturns None;
                 DxCli.Tick] _ eq_refl) as [H1 H2].
  split; [exact H1 |]. split; vm_compute; reflexivity.
Defined.

(** ** utils.readableFileSize: the first unit *)


